(** * modelops-benchmarking: the prompt corpus generator and the results relay

    Two leaf programs of the repository are embedded here.

    - [PyStr]: the operations of Python's [str] that the programs use
      ([strip], [replace], [*], the [03d] format) and [json.dumps] of a
      one-field record.
    - [PromptGen]: [guidellm-pipeline/generate-benchmark-prompts.py].
    - [ResultsUI]: the [/data] route of [results-ui/app.py].
    - [ResultsUIStart]: the check that [results-ui/app.py] makes when it
      is loaded.
    - [Corpus]: the lines of the file that the generator leaves.
    - [ResultsPage]: the tests on metric keys in the script of the page
      that [results-ui/app.py] serves.

    A Python [str] is a [string] whose characters are read as code points
    0..255; every literal of the two programs that is modelled is ASCII. *)

From Stdlib Require Import String Ascii List Arith NArith ZArith Lia Bool.
From Stdlib Require Import Decimal DecimalNat DecimalString.
From Stdlib Require QArith.
From ExtLib Require Import Structures.Monad Structures.MonadState.
From ExtLib Require Import Data.Monads.StateMonad.
Import ListNotations.
Import MonadNotation.

Local Open Scope string_scope.
Local Open Scope monad_scope.

(* ===================================================================== *)
(** ** Python string operations *)
(* ===================================================================== *)

Module PyStr.

(** The double quote and the line feed, which a literal cannot hold. *)
Definition DQ : ascii := ascii_of_nat 34.
Definition LF : ascii := ascii_of_nat 10.
Definition dq : string := String DQ "".
Definition nl : string := String LF "".

(** [str.isspace] on one character, for code points below 256: the ASCII
    controls TAB, LF, VT, FF, CR, the separators FS, GS, RS, US, the space,
    and NEL and NBSP of Latin-1. *)
Definition is_space (c : ascii) : bool :=
  let n := nat_of_ascii c in
  (((9 <=? n) && (n <=? 13)) || ((28 <=? n) && (n <=? 32))
   || (n =? 133) || (n =? 160))%nat.

(** The strings of a list one after the other. *)
Definition cat (ls : list string) : string := fold_right String.append "" ls.

(** [s.lstrip()] *)
Fixpoint lstrip (s : string) : string :=
  match s with
  | "" => ""
  | String c s' => if is_space c then lstrip s' else s
  end.

(** [s.rstrip()]: a character is dropped when it is white and everything
    after it was dropped. *)
Fixpoint rstrip (s : string) : string :=
  match s with
  | "" => ""
  | String c s' =>
      match rstrip s' with
      | "" => if is_space c then "" else String c ""
      | r => String c r
      end
  end.

(** [s.strip()] *)
Definition strip (s : string) : string := rstrip (lstrip s).

(** [s * n] for an [int] n: the empty string when [n <= 0]. *)
Fixpoint repeat_nat (s : string) (n : nat) : string :=
  match n with
  | O => ""
  | S k => s ++ repeat_nat s k
  end.

Definition mul (s : string) (n : Z) : string := repeat_nat s (Z.to_nat n).

(** [s.replace(old, new)]: every occurrence of [old], scanning from the
    left without overlap.  [skip] counts the characters of a matched [old]
    still to be passed over. *)
Fixpoint replace_from (old new : string) (skip : nat) (s : string) : string :=
  match s with
  | "" => ""
  | String c s' =>
      match skip with
      | S k => replace_from old new k s'
      | O =>
          if String.prefix old s
          then new ++ replace_from old new (String.length old - 1) s'
          else String c (replace_from old new 0 s')
      end
  end.

(** With an empty [old] Python puts [new] before every character and at
    the end. *)
Fixpoint interleave (new s : string) : string :=
  match s with
  | "" => new
  | String c s' => new ++ String c (interleave new s')
  end.

Definition replace (old new s : string) : string :=
  match old with
  | "" => interleave new s
  | _ => replace_from old new 0 s
  end.

(** [format(i, "03d")] for [i >= 0]: the decimal digits, filled with zeros
    on the left up to three characters. *)
Definition format_03d (i : nat) : string :=
  let digits := NilEmpty.string_of_uint (Nat.to_uint i) in
  repeat_nat "0" (3 - String.length digits) ++ digits.

(** One decimal digit as a character. *)
Definition digit_char (d : nat) : ascii := ascii_of_nat (48 + d).

(** The three decimal digits of a number below 1000. *)
Definition three_digits (i : nat) : string :=
  String (digit_char (i / 100))
    (String (digit_char ((i / 10) mod 10))
       (String (digit_char (i mod 10)) "")).

(** The number that a string of decimal digits writes. *)
Definition number_of (s : string) : option nat :=
  option_map Nat.of_uint (NilEmpty.uint_of_string s).

(** One hexadecimal digit, lower case, as [format(n, "x")] prints it. *)
Definition hex_char (d : nat) : ascii :=
  if (d <? 10)%nat then ascii_of_nat (48 + d) else ascii_of_nat (87 + d).

(** [json.encoder.py_encode_basestring_ascii] on one character: the short
    escapes, then [\u00xx] for whatever lies outside [' '..'~']. *)
Definition json_escape_char (c : ascii) : string :=
  let n := nat_of_ascii c in
  if (n =? 34)%nat then "\" ++ dq
  else if (n =? 92)%nat then "\\"
  else if (n =? 8)%nat then "\b"
  else if (n =? 12)%nat then "\f"
  else if (n =? 10)%nat then "\n"
  else if (n =? 13)%nat then "\r"
  else if (n =? 9)%nat then "\t"
  else if ((32 <=? n) && (n <=? 126))%nat then String c ""
  else "\u00" ++ String (hex_char (n / 16)) (String (hex_char (n mod 16)) "").

Fixpoint json_escape (s : string) : string :=
  match s with
  | "" => ""
  | String c s' => json_escape_char c ++ json_escape s'
  end.

(** [json.dumps(s)] for a [str]. *)
Definition json_dumps_str (s : string) : string := dq ++ json_escape s ++ dq.

(** [text.split("\n")] without the piece after the last line feed: the
    lines of a text file, each ended by a line feed. *)
Fixpoint lines_from (cur : string) (s : string) : list string :=
  match s with
  | "" => []
  | String c s' =>
      if Ascii.eqb c LF
      then cur :: lines_from "" s'
      else lines_from (cur ++ String c "") s'
  end.

Definition lines (s : string) : list string := lines_from "" s.

(** [c in s] for a character. *)
Fixpoint mem_char (c : ascii) (s : string) : bool :=
  match s with
  | "" => false
  | String d s' => Ascii.eqb c d || mem_char c s'
  end.

(** [s.find(sub)], [None] for Python's -1. *)
Definition find (sub s : string) : option nat := String.index 0 sub s.

(** [s[i:j]] for [0 <= i <= j]. *)
Definition slice (i j : nat) (s : string) : string := String.substring i (j - i) s.

(** [sub in s] *)
Fixpoint contains (sub s : string) : bool :=
  String.prefix sub s ||
  match s with
  | "" => false
  | String _ s' => contains sub s'
  end.

End PyStr.

(* ===================================================================== *)
(** ** guidellm-pipeline/generate-benchmark-prompts.py *)
(* ===================================================================== *)

Module PromptGen.
Import PyStr.

(** A triple-quoted literal that opens and closes on lines of its own: a
    line feed, then every line with its line feed. *)
Definition triple_quoted (ls : list string) : string :=
  nl ++ cat (map (fun l => l ++ nl) ls).

Definition short_prompts : list string :=
  [ "list pods";
    "check db status";
    "hello";
    "what's the weather in denver?";
    "delete user 4091";
    "show routes";
    "get logs for pod-abc-123";
    "who is online?";
    "reboot server-main-db";
    "what is 2+2?" ].

Definition medium_prompts : list string :=
  [ "Explain the difference between a Kubernetes Deployment and a StatefulSet.";
    "How do I configure a Tekton EventListener for a GitHub webhook?";
    "Write a Python function to parse a JSON file and return a list of all top-level keys.";
    "What are the pros and cons of using vLLM vs. TGI for inference serving?";
    "Summarize the following text: [placeholder for a 3-paragraph article]";
    "My OpenShift build is failing. What does the 'ImagePullBackOff' error mean?";
    "Translate this to German: 'My CI/CD pipeline is broken and I need to fix it before the demo.'" ].

Definition long_yaml_example : string :=
  triple_quoted
  [ "Please analyze this Tekton Task YAML for any syntax errors or best-practice violations:";
    "apiVersion: tekton.dev/v1";
    "kind: Task";
    "metadata:";
    "  name: deploy-using-helm";
    "spec:";
    "  params:";
    "    - name: helm-chart-path";
    "      description: The path to the helm chart";
    "      type: string";
    "    - name: release-name";
    "      description: The name of the release";
    "      type: string";
    "  steps:";
    "    - name: helm-deploy";
    "      image: " ++ dq ++ "alpine/helm:3.10.0" ++ dq;
    "      script: |";
    "        #!/usr/bin/env sh";
    "        echo " ++ dq ++ "Deploying $(params.release-name) from $(params.helm-chart-path)..." ++ dq ].

Definition huge_stack_trace_example : string :=
  triple_quoted
  [ "My application is crashing in production. Analyze this full stack trace and tell me the root cause.";
    "`";
    "Traceback (most recent call last):";
    "  File " ++ dq ++ "/opt/app-root/src/main.py" ++ dq ++ ", line 215, in <module>";
    "    main()";
    "  File " ++ dq ++ "/opt/app-root/src/main.py" ++ dq ++ ", line 198, in main";
    "    db.connect(os.environ.get('DATABASE_URL'))";
    "  File " ++ dq ++ "/opt/app-root/lib/python3.9/site-packages/db_client/connector.py" ++ dq ++ ", line 89, in _try_connect";
    "    raise ConnectionTimeoutError(f" ++ dq ++ "Failed to connect to {host} after {retries} attempts" ++ dq ++ ")";
    "db_client.errors.ConnectionTimeoutError: Failed to connect to db.production.svc.cluster.local after 3 attempts";
    "... (stack trace continues)";
    "...";
    "Last error received from driver:";
    "psycopg2.OperationalError: could not connect to server: Connection refused";
    "`" ].

(** The literal that the huge class repeats. *)
Definition spam_line : string := nl ++ "... (simulated repeating log noise)...".

Definition num_prompts : nat := 100.

(** *** The process state

    The script reads the module-level random source and appends to one
    open file.  The random source is not seeded, so it is a tape of raw
    draws that the theorems quantify over; [pos] is the next unread cell. *)
Record Proc : Type := mkProc {
  tape : nat -> N;
  pos : nat;
  file : string
}.

Definition Run : Type -> Type := state Proc.

Definition next_raw : Run N :=
  p <- get ;;
  put (mkProc (tape p) (S (pos p)) (file p)) ;;
  ret (tape p (pos p)).

(** A float of [random.random()] is [k / 2^53] for an integer
    [0 <= k < 2^53]; it is kept as its numerator [k]. *)
Definition two53 : N := 9007199254740992.

Definition random : Run N :=
  raw <- next_raw ;;
  ret (raw mod two53)%N.

(** The doubles that the literals [0.40], [0.75] and [0.90] denote, as
    numerators over [2^53]. *)
Definition lit_0_40 : N := 3602879701896397.
Definition lit_0_75 : N := 6755399441055744.
Definition lit_0_90 : N := 8106479329266893.

(** [random.choice(seq)] on a non-empty list. *)
Definition choice (seq : list string) : Run string :=
  raw <- next_raw ;;
  ret (nth (N.to_nat (raw mod N.of_nat (List.length seq))) seq EmptyString).

(** [random.randint(a, b)] for [a <= b]: some integer of [a..b]. *)
Definition randint (a b : Z) : Run Z :=
  raw <- next_raw ;;
  ret (a + Z.of_N raw mod (b - a + 1))%Z.

(** [f.write(s)] *)
Definition f_write (s : string) : Run unit :=
  p <- get ;;
  put (mkProc (tape p) (pos p) (file p ++ s)).

(** The record of one line and [json.dumps] of it. *)
Record record : Type := mkRecord { prompt : string }.

Definition json_dumps (r : record) : string :=
  "{" ++ json_dumps_str "prompt" ++ ": " ++ json_dumps_str (prompt r) ++ "}".

(** The two computed prompts of the loop body. *)
Definition long_prompt_text (i : nat) : string :=
  replace "deploy-using-helm" ("deploy-using-helm-" ++ format_03d i)
          long_yaml_example.

Definition huge_prompt_text (extra_spam_lines : Z) : string :=
  let extra_spam := mul spam_line extra_spam_lines in
  huge_stack_trace_example ++ extra_spam.

(** The size class that a draw of [random.random()] selects. *)
Inductive size_class : Type := Short | Medium | Long | Huge.

Definition class_of (rand_val : N) : size_class :=
  if (rand_val <? lit_0_40)%N then Short
  else if (rand_val <? lit_0_75)%N then Medium
  else if (rand_val <? lit_0_90)%N then Long
  else Huge.

(** The [if]/[elif] chain that picks [prompt_text]. *)
Definition pick_prompt_text (i : nat) : Run string :=
  rand_val <- random ;;
  if (rand_val <? lit_0_40)%N then choice short_prompts
  else if (rand_val <? lit_0_75)%N then choice medium_prompts
  else if (rand_val <? lit_0_90)%N then ret (long_prompt_text i)
  else
    extra_spam_lines <- randint 5 50 ;;
    ret (huge_prompt_text extra_spam_lines).

(** One turn of the loop. *)
Definition loop_body (i : nat) : Run unit :=
  prompt_text <- pick_prompt_text i ;;
  let record := mkRecord (strip prompt_text) in
  f_write (json_dumps record ++ nl).

(** [for i in range(start, start + count): body(i)] *)
Fixpoint for_range (body : nat -> Run unit) (start count : nat) : Run unit :=
  match count with
  | O => ret tt
  | S k => body start ;; for_range body (S start) k
  end.

(** The script from [open(..., "w")], which empties the file, to the end
    of the [with] block. *)
Definition main : Run unit := for_range loop_body 0 num_prompts.

Definition start (t : nat -> N) : Proc := mkProc t 0 EmptyString.

(** The content of [historical_prompts.jsonl] after a run. *)
Definition output (t : nat -> N) : string := file (execState main (start t)).

(** *** What a run writes, turn by turn *)

(** The state after [k] more draws. *)
Definition after_draws (k : nat) (p : Proc) : Proc :=
  mkProc (tape p) (k + pos p) (file p).

(** The draw of [random.random()] in state [p]. *)
Definition rand_val_of (p : Proc) : N := (tape p (pos p) mod two53)%N.

(** The record that the loop body writes at index [i] in state [p]. *)
Definition written (i : nat) (p : Proc) : record :=
  mkRecord (strip (evalState (pick_prompt_text i) p)).

(** The records of [count] turns from index [first] on. *)
Fixpoint records_from (first count : nat) (p : Proc) : list record :=
  match count with
  | O => []
  | S k =>
      written first p
      :: records_from (S first) k (execState (loop_body first) p)
  end.

(** The long template around its identifier. *)
Definition long_before : string :=
  Eval vm_compute in
    match find "deploy-using-helm" long_yaml_example with
    | Some k => slice 0 k long_yaml_example
    | None => ""
    end.

Definition long_after : string :=
  Eval vm_compute in
    match find "deploy-using-helm" long_yaml_example with
    | Some k =>
        slice (k + String.length "deploy-using-helm")
              (String.length long_yaml_example) long_yaml_example
    | None => ""
    end.

End PromptGen.

(* ===================================================================== *)
(** ** results-ui/app.py: the [/data] route *)
(* ===================================================================== *)

Module ResultsUI.
Import PyStr.

#[local] Set Warnings "-register-all".

(** *** Python values

    What [json.loads] and [yaml.safe_load] build.  A [dict] keeps its
    items in insertion order; [PyObject] stands for the objects that only
    YAML constructs (dates, bytes, sets), of which the route needs to know
    nothing but that they are not dicts. *)
Inductive pyvalue : Type :=
| PyNone
| PyBool (b : bool)
| PyInt (z : Z)
| PyFloat (repr : string)
| PyStr (s : string)
| PyList (xs : list pyvalue)
| PyDict (items : list (pyvalue * pyvalue))
| PyObject (type_name : string).

(** [isinstance(data, dict)] *)
Definition is_dict (data : pyvalue) : bool :=
  match data with
  | PyDict _ => true
  | _ => false
  end.

(** [key in data] for a [str] key: only a [str] equals a [str]. *)
Definition key_is (key : string) (k : pyvalue) : bool :=
  match k with
  | PyStr s => String.eqb s key
  | _ => false
  end.

Definition py_in (key : string) (data : pyvalue) : bool :=
  match data with
  | PyDict items => existsb (fun kv => key_is key (fst kv)) items
  | _ => false
  end.

(** *** Exceptions

    The classes that the route's [except] clauses tell apart; everything
    else that derives from [Exception] is [OtherException].  [ClientError]
    carries [e.response['Error']['Code']] and [['Message']]. *)
Inductive exn : Type :=
| NoCredentialsError (msg : string)
| ClientError (Code Message : string)
| JSONDecodeError (msg : string)
| YAMLError (msg : string)
| OtherException (msg : string).

(** [str(e)] *)
Definition str (e : exn) : string :=
  match e with
  | NoCredentialsError msg => msg
  | ClientError Code Message =>
      "An error occurred (" ++ Code
      ++ ") when calling the GetObject operation: " ++ Message
  | JSONDecodeError msg => msg
  | YAMLError msg => msg
  | OtherException msg => msg
  end.

(** A call that returns or raises. *)
Definition result (A : Type) : Type := (exn + A)%type.

(** *** The object store

    [get_object] answers with an object whose body, read to the end and
    decoded as UTF-8, is a text, unless one of the three steps raises. *)
Record s3_object : Type := mkObject {
  Body_read_decode : result string
}.

Record S3Client : Type := mkClient {
  client_get_object : string -> string -> result s3_object
}.

(** The calls that go out to the store, in order. *)
Inductive s3_call : Type :=
| GetObject (Bucket Key : string).

Definition Handler : Type -> Type := state (list s3_call).

(** [s3_client.get_object(Bucket=..., Key=...)] *)
Definition get_object (c : S3Client) (Bucket Key : string)
  : Handler (result s3_object) :=
  log <- get ;;
  put (log ++ [GetObject Bucket Key])%list ;;
  ret (client_get_object c Bucket Key).

(** *** Responses

    A response keeps the value that was handed to [jsonify] as its body;
    [return jsonify(d), code] sets the status, which is 200 otherwise. *)
Record Response : Type := mkResponse {
  body : pyvalue;
  status : nat
}.

Definition with_status (r : Response) (code : nat) : Response :=
  mkResponse (body r) code.

(** [{"error": msg}] *)
Definition error_dict (msg : string) : pyvalue :=
  PyDict [(PyStr "error", PyStr msg)].

(** [jsonify({"error": msg})]: a dict of one [str] under a [str] key,
    on which the serialiser raises nothing. *)
Definition jsonify_error (msg : string) : Response :=
  mkResponse (error_dict msg) 200.

(** [{"fileType": t, "data": data, "fileName": file_key}] *)
Definition envelope (t : string) (data : pyvalue) (file_key : string)
  : pyvalue :=
  PyDict [(PyStr "fileType", PyStr t);
          (PyStr "data", data);
          (PyStr "fileName", PyStr file_key)].

(** [not x] for an optional string: [None] and the empty string are
    false. *)
Definition not_str (x : option string) : bool :=
  match x with
  | None => true
  | Some s => String.eqb s ""
  end.

(** [not x] for an optional object. *)
Definition not_obj {A : Type} (x : option A) : bool :=
  match x with
  | None => true
  | Some _ => false
  end.

Definition unknown_structure_message : string :=
  "Unknown file structure. Expected 'benchmarks' key (for YAML) or 'results' and 'config' keys (for JSON).".

Section Route.

(** The module-level configuration and the two parsers. *)
Variable S3_BUCKET_NAME : option string.
Variable s3_client : option S3Client.
Variable json_loads : string -> result pyvalue.
Variable yaml_safe_load : string -> result pyvalue.

(** What the JSON provider of Flask raises when it serialises a value,
    as the text of the exception, or [None] when it serialises: a
    [TypeError] on a value it has no rule for ([bytes], a [set]) or on
    keys that do not sort, a [RecursionError] on a nesting too deep.
    None of them is a [JSONDecodeError] or a [YAMLError]. *)
Variable dumps_raises : pyvalue -> option string.

(** [jsonify(d)]: the value is serialised at the call, so the call
    raises what the serialiser raises. *)
Definition jsonify (d : pyvalue) : result Response :=
  match dumps_raises d with
  | Some msg => inl (OtherException msg)
  | None => inr (mkResponse d 200)
  end.

(** The body of the [try] of step 5: [Some] response when it returns,
    [None] when it runs to its end. *)
Definition yaml_try (file_key file_content : string)
  : result (option Response) :=
  match yaml_safe_load file_content with
  | inl e => inl e
  | inr data =>
      if is_dict data && py_in "benchmarks" data
      then match jsonify (envelope "benchmark" data file_key) with
           | inl e => inl e
           | inr response => inr (Some response)
           end
      else inr None
  end.

(** Step 5 and step 6 of the route: the YAML attempt with its two
    [except] clauses, and the final error. *)
Definition yaml_attempt (file_key file_content : string) : Response :=
  match yaml_try file_key file_content with
  | inr (Some response) => response
  | inr None => with_status (jsonify_error unknown_structure_message) 400
  | inl (YAMLError msg) =>
      with_status
        (jsonify_error ("Error parsing YAML file: " ++ str (YAMLError msg)))
        500
  | inl e =>
      with_status
        (jsonify_error ("Error during YAML processing: " ++ str e))
        500
  end.

(** The body of the [try] of step 4. *)
Definition json_try (file_key file_content : string)
  : result (option Response) :=
  match json_loads file_content with
  | inl e => inl e
  | inr data =>
      if is_dict data && py_in "results" data && py_in "config" data
      then match jsonify (envelope "lm-eval" data file_key) with
           | inl e => inl e
           | inr response => inr (Some response)
           end
      else inr None
  end.

(** Step 4: the JSON attempt, which goes on to the YAML attempt when the
    [try] runs to its end and when it raises [JSONDecodeError]. *)
Definition json_attempt (file_key file_content : string) : Response :=
  match json_try file_key file_content with
  | inr (Some response) => response
  | inr None => yaml_attempt file_key file_content
  | inl (JSONDecodeError _) => yaml_attempt file_key file_content
  | inl e =>
      with_status
        (jsonify_error ("Error during JSON processing: " ++ str e))
        500
  end.

(** Step 3: the [try] around [get_object], [read] and [decode]. *)
Definition fetch (client : S3Client) (Bucket file_key : string)
  : Handler (result string) :=
  s3_object <- get_object client Bucket file_key ;;
  ret match s3_object with
      | inl e => inl e
      | inr o => Body_read_decode o
      end.

(** [get_benchmark_data()], with [request.args.get('file')] as its
    argument. *)
Definition get_benchmark_data (file_key : option string) : Handler Response :=
  if not_str file_key
  then ret (with_status
              (jsonify_error "No 'file' parameter specified in URL.")
              400)
  else if not_str S3_BUCKET_NAME || not_obj s3_client
  then ret (with_status
              (jsonify_error "Server is not configured for S3 access.")
              500)
  else
    match file_key, S3_BUCKET_NAME, s3_client with
    | Some file_key, Some Bucket, Some client =>
        fetched <- fetch client Bucket file_key ;;
        ret match fetched with
            | inl (NoCredentialsError _) =>
                with_status
                  (jsonify_error "Server S3 credentials are invalid or missing.")
                  500
            | inl (ClientError Code Message) =>
                if String.eqb Code "NoSuchKey"
                then with_status
                       (jsonify_error ("File not found in S3 bucket: " ++ file_key))
                       404
                else with_status
                       (jsonify_error ("S3 Error: " ++ Message))
                       500
            | inl e =>
                with_status
                  (jsonify_error ("An unexpected error occurred: " ++ str e))
                  500
            | inr file_content => json_attempt file_key file_content
            end
    | _, _, _ =>
        (* not reached: the two tests above have returned *)
        ret (with_status
               (jsonify_error "Server is not configured for S3 access.")
               500)
    end.

(** One request served from an empty log: the response and the calls that
    went out. *)
Definition serve (file_key : option string) : Response * list s3_call :=
  runState (get_benchmark_data file_key) [].

Definition response_of (file_key : option string) : Response :=
  fst (serve file_key).

Definition calls_of (file_key : option string) : list s3_call :=
  snd (serve file_key).

(** The request reaches the store and gets [file_content] back. *)
Definition retrieves (file_key file_content : string) : Prop :=
  file_key <> "" /\
  exists Bucket client o,
    S3_BUCKET_NAME = Some Bucket /\ Bucket <> "" /\
    s3_client = Some client /\
    client_get_object client Bucket file_key = inr o /\
    Body_read_decode o = inr file_content.

(** The request reaches the store and the retrieval raises [e]. *)
Definition retrieval_raises (file_key : string) (e : exn) : Prop :=
  file_key <> "" /\
  exists Bucket client,
    S3_BUCKET_NAME = Some Bucket /\ Bucket <> "" /\
    s3_client = Some client /\
    (client_get_object client Bucket file_key = inl e \/
     exists o, client_get_object client Bucket file_key = inr o /\
               Body_read_decode o = inl e).

End Route.

(** *** The shapes, as the specification words them *)

(** A mapping that has an item under the string key [key]. *)
Definition mapping_with_key (key : string) (data : pyvalue) : Prop :=
  exists items v, data = PyDict items /\ In (PyStr key, v) items.

Definition lm_eval_shape (data : pyvalue) : Prop :=
  mapping_with_key "results" data /\ mapping_with_key "config" data.

Definition benchmark_shape (data : pyvalue) : Prop :=
  mapping_with_key "benchmarks" data.

(** The text is not classified as lm-eval: the JSON parse fails, or it
    gives a value of another shape. *)
Definition not_lm_eval_json (json_loads : string -> result pyvalue)
           (file_content : string) : Prop :=
  (exists msg, json_loads file_content = inl (JSONDecodeError msg)) \/
  (exists data, json_loads file_content = inr data /\ ~ lm_eval_shape data).

End ResultsUI.

(* ===================================================================== *)
(** ** results-ui/app.py: the check at start-up *)
(* ===================================================================== *)

Module ResultsUIStart.
Import ResultsUI.

(** The truth value of what [os.environ.get] returns. *)
Definition truthy (x : option string) : bool := negb (not_str x).

(** The module-level [if not all([...])]: the lines it prints.  The
    module goes on to build the client and the application either way. *)
Definition startup_check
           (S3_BUCKET_NAME S3_ACCESS_KEY S3_SECRET_KEY : option string)
  : list string :=
  if negb (forallb truthy [S3_BUCKET_NAME; S3_ACCESS_KEY; S3_SECRET_KEY])
  then [ "FATAL ERROR: S3_BUCKET_NAME, S3_ACCESS_KEY, and S3_SECRET_KEY";
         "must be set as environment variables." ]
  else [].

End ResultsUIStart.

(* ===================================================================== *)
(** ** Reading a corpus file back *)
(* ===================================================================== *)

Module Corpus.
Import PyStr PromptGen.

(** A condition on every character of a string. *)
Fixpoint all_chars (P : ascii -> bool) (s : string) : bool :=
  match s with
  | "" => true
  | String c s' => P c && all_chars P s'
  end.

(** The printable ASCII characters, from the space to the tilde. *)
Definition is_printable (c : ascii) : bool :=
  let n := nat_of_ascii c in ((32 <=? n) && (n <=? 126))%nat.

(** The value of a hexadecimal digit in lower case. *)
Definition hex_value (c : ascii) : option nat :=
  let n := nat_of_ascii c in
  if ((48 <=? n) && (n <=? 57))%nat then Some (n - 48)
  else if ((97 <=? n) && (n <=? 102))%nat then Some (n - 87)
  else None.

(** The escapes of [json_escape] read back: a backslash announces one of
    the short escapes or [u00xx]; any other character stands for itself.
    [None] when a backslash is followed by something else. *)
Fixpoint json_unescape (s : string) : option string :=
  match s with
  | "" => Some ""
  | String c s1 =>
      if negb (nat_of_ascii c =? 92)%nat
      then option_map (String c) (json_unescape s1)
      else
        match s1 with
        | "" => None
        | String d s2 =>
            let n := nat_of_ascii d in
            if (n =? 34)%nat then option_map (String d) (json_unescape s2)
            else if (n =? 92)%nat then option_map (String d) (json_unescape s2)
            else if (n =? 98)%nat
            then option_map (String (ascii_of_nat 8)) (json_unescape s2)
            else if (n =? 102)%nat
            then option_map (String (ascii_of_nat 12)) (json_unescape s2)
            else if (n =? 110)%nat
            then option_map (String (ascii_of_nat 10)) (json_unescape s2)
            else if (n =? 114)%nat
            then option_map (String (ascii_of_nat 13)) (json_unescape s2)
            else if (n =? 116)%nat
            then option_map (String (ascii_of_nat 9)) (json_unescape s2)
            else if (n =? 117)%nat
            then
              match s2 with
              | String _ (String _ (String x (String y s3))) =>
                  match hex_value x, hex_value y with
                  | Some h, Some l =>
                      option_map (String (ascii_of_nat (16 * h + l)))
                                 (json_unescape s3)
                  | _, _ => None
                  end
              | _ => None
              end
            else None
        end
  end.

(** *** What a reader makes of a line

    A line of the corpus is read as a JSON object with the one member
    [prompt]: the opening, then the characters of a JSON string up to its
    closing quote, then the closing brace and nothing more. *)

Definition record_head : string := "{" ++ dq ++ "prompt" ++ dq ++ ": " ++ dq.

(** [s] without the prefix [p], when it has it. *)
Fixpoint drop_prefix (p s : string) : option string :=
  match p, s with
  | "", _ => Some s
  | String a p', String b s' =>
      if Ascii.eqb a b then drop_prefix p' s' else None
  | String _ _, "" => None
  end.

(** The value of a JSON string from behind its opening quote on, when
    what follows its closing quote is the closing brace.  A raw
    character must be printable ASCII other than the quote and the
    backslash; an escape is one of the short ones or [u00xx]. *)
Fixpoint read_string_and_brace (s : string) : option string :=
  match s with
  | "" => None
  | String c s1 =>
      let n := nat_of_ascii c in
      if (n =? 34)%nat
      then if String.eqb s1 "}" then Some "" else None
      else if (n =? 92)%nat
      then
        match s1 with
        | "" => None
        | String d s2 =>
            let m := nat_of_ascii d in
            if ((m =? 34) || (m =? 92))%nat
            then option_map (String d) (read_string_and_brace s2)
            else if (m =? 98)%nat
            then option_map (String (ascii_of_nat 8)) (read_string_and_brace s2)
            else if (m =? 102)%nat
            then option_map (String (ascii_of_nat 12)) (read_string_and_brace s2)
            else if (m =? 110)%nat
            then option_map (String (ascii_of_nat 10)) (read_string_and_brace s2)
            else if (m =? 114)%nat
            then option_map (String (ascii_of_nat 13)) (read_string_and_brace s2)
            else if (m =? 116)%nat
            then option_map (String (ascii_of_nat 9)) (read_string_and_brace s2)
            else if (m =? 117)%nat
            then
              match s2 with
              | String z1 (String z2 (String x (String y s3))) =>
                  match hex_value x, hex_value y with
                  | Some h, Some l =>
                      if ((nat_of_ascii z1 =? 48) && (nat_of_ascii z2 =? 48))%nat
                      then option_map (String (ascii_of_nat (16 * h + l)))
                                      (read_string_and_brace s3)
                      else None
                  | _, _ => None
                  end
              | _ => None
              end
            else None
        end
      else if is_printable c
      then option_map (String c) (read_string_and_brace s1)
      else None
  end.

Definition parse_record_line (line : string) : option record :=
  match drop_prefix record_head line with
  | Some rest => option_map mkRecord (read_string_and_brace rest)
  | None => None
  end.

(** *** What a trimmed string is: no white character at either end *)

Definition first_char (s : string) : option ascii :=
  match s with
  | "" => None
  | String c _ => Some c
  end.

Fixpoint last_char (s : string) : option ascii :=
  match s with
  | "" => None
  | String c s' =>
      match s' with
      | "" => Some c
      | String _ _ => last_char s'
      end
  end.

Definition no_space_at_ends (s : string) : bool :=
  match first_char s, last_char s with
  | Some a, Some b => negb (is_space a) && negb (is_space b)
  | _, _ => true
  end.

(** The state in which turn [i] of a run begins. *)
Definition state_before (t : nat -> N) (i : nat) : Proc :=
  execState (for_range loop_body 0 i) (start t).

(** The class of record [i] of a run. *)
Definition class_at (t : nat -> N) (i : nat) : size_class :=
  class_of (rand_val_of (state_before t i)).

(** Line [i] of the file of a run, counted from 0. *)
Definition line_at (t : nat -> N) (i : nat) : string :=
  nth i (lines (output t)) "".

End Corpus.

(* ===================================================================== *)
(** ** results-ui/app.py: the script of the page, its tests on metric keys *)
(* ===================================================================== *)

Module ResultsPage.
Import PyStr.

(** A JavaScript string is a [string] of code units below 256.

    [s.toLowerCase()] on such units: the letters A to Z and the capital
    letters of Latin-1 move 32 up; nothing else changes. *)
Definition lower_unit (c : ascii) : ascii :=
  let n := nat_of_ascii c in
  if (((65 <=? n) && (n <=? 90)) || ((192 <=? n) && (n <=? 214))
      || ((216 <=? n) && (n <=? 222)))%nat
  then ascii_of_nat (n + 32)
  else c.

Fixpoint toLowerCase (s : string) : string :=
  match s with
  | "" => ""
  | String c s' => String (lower_unit c) (toLowerCase s')
  end.

(** [s.includes(sub)] and [s.startsWith(p)] *)
Definition includes (s sub : string) : bool := contains sub s.
Definition startsWith (s p : string) : bool := String.prefix p s.

(** [s.endsWith(suf)]: [suf] is what is left of [s] from some place on. *)
Fixpoint endsWith (s suf : string) : bool :=
  String.eqb s suf ||
  match s with
  | "" => false
  | String _ s' => endsWith s' suf
  end.

(** [s.slice(n)] for [n >= 0] *)
Fixpoint slice_from (n : nat) (s : string) : string :=
  match n, s with
  | O, _ => s
  | S k, String _ s' => slice_from k s'
  | S _, "" => ""
  end.

(** [s.replace(pat, rep)] for a string pattern and a replacement that
    holds no dollar sign: the first occurrence only. *)
Fixpoint replace_first (pat rep s : string) : string :=
  if String.prefix pat s then rep ++ slice_from (String.length pat) s
  else
    match s with
    | "" => ""
    | String c s' => String c (replace_first pat rep s')
    end.

(** *** Numbers and values

    A number is a finite double, kept as the rational it denotes, or one
    of the three special values.  Of the other values only the type
    matters here. *)
Inductive jsnumber : Type :=
| Finite (q : QArith_base.Q)
| PlusInfinity
| MinusInfinity
| NaN.

Inductive jsvalue : Type :=
| JsUndefined
| JsNull
| JsBoolean (b : bool)
| JsNumber (x : jsnumber)
| JsString (s : string)
| JsObject.

(** [typeof v] *)
Definition typeof (v : jsvalue) : string :=
  match v with
  | JsUndefined => "undefined"
  | JsBoolean _ => "boolean"
  | JsNumber _ => "number"
  | JsString _ => "string"
  | JsNull | JsObject => "object"
  end.

(** [x > lit] for a finite literal. *)
Definition gt (x : jsnumber) (lit : QArith_base.Q) : bool :=
  match x with
  | Finite q => negb (QArith_base.Qle_bool q lit)
  | PlusInfinity => true
  | MinusInfinity | NaN => false
  end.

(** The doubles that the literals [0.6] and [0.3] denote. *)
Definition lit_0_6 : QArith_base.Q :=
  QArith_base.Qmake 5404319552844595 9007199254740992.
Definition lit_0_3 : QArith_base.Q :=
  QArith_base.Qmake 5404319552844595 18014398509481984.

(** *** [getQualitativeRating] *)

Definition badge (class label : string) : string :=
  "<span class=" ++ dq ++ "rating-badge " ++ class ++ dq ++ ">" ++ label
  ++ "</span>".

Definition rating_na : string := badge "rating-na" "N/A".
Definition rating_good : string := badge "rating-good" "Good".
Definition rating_moderate : string := badge "rating-moderate" "Moderate".
Definition rating_poor : string := badge "rating-poor" "Poor".

Definition getQualitativeRating (metricKey : string) (value : jsvalue)
  : string :=
  if includes (toLowerCase metricKey) "stderr"
     || includes (toLowerCase metricKey) "stderror"
     || endsWith (toLowerCase metricKey) "_stderr"
     || negb (String.eqb (typeof value) "number")
  then rating_na
  else if startsWith metricKey "acc"
  then
    match value with
    | JsNumber x =>
        if gt x lit_0_6 then rating_good
        else if gt x lit_0_3 then rating_moderate
        else rating_poor
    | _ => rating_na (* not reached: [typeof value] is "number" *)
    end
  else rating_na.

(** *** [displayLmEvalResults]: which keys of a task are metrics, and
    where the standard error of a metric is looked up *)

(** [k !== 'alias' && !k.endsWith('_stderr')] *)
Definition is_metric_key (k : string) : bool :=
  negb (String.eqb k "alias") && negb (endsWith k "_stderr").

(** [metricKey.includes(',') ? metricKey.replace(',', '_stderr,')
                             : metricKey + '_stderr'] *)
Definition stdErrKey (metricKey : string) : string :=
  if includes metricKey ","
  then replace_first "," "_stderr," metricKey
  else metricKey ++ "_stderr".

(** *** [generateMetricItem] and [createComparisonChart]: scale and unit *)

Definition isLatency (metricKey : string) : bool :=
  includes metricKey "_ms" || String.eqb metricKey "request_latency".

Definition scaleFactor (metricKey : string) : nat :=
  if isLatency metricKey && negb (String.eqb metricKey "request_latency")
  then 1000
  else 1.

Definition unitLabel (metricKey : string) : string :=
  if String.eqb metricKey "request_latency" then "s"
  else if includes metricKey "_ms" then "ms"
  else "".

End ResultsPage.

(* ===================================================================== *)
(** ** Concrete stores, parsers and tapes *)
(* ===================================================================== *)

Module Fixtures.
Import PyStr ResultsUI.

(** A bucket with six objects.  The two parsers answer on the texts of
    these objects as [json.loads] and [yaml.safe_load] do. *)
Definition bucket : string := "benchmark-results".

Definition lm_eval_text : string :=
  "{" ++ dq ++ "results" ++ dq ++ ": {}, " ++ dq ++ "config" ++ dq ++ ": {}}".
Definition benchmark_yaml_text : string := "benchmarks: []".
Definition benchmark_json_text : string :=
  "{" ++ dq ++ "benchmarks" ++ dq ++ ": []}".
Definition foo_text : string := "{" ++ dq ++ "foo" ++ dq ++ ": 1}".
Definition list_yaml_text : string := "- a".
Definition broken_yaml_text : string := "a: [1, 2".

Definition lm_eval_doc : pyvalue :=
  PyDict [(PyStr "results", PyDict []); (PyStr "config", PyDict [])].
Definition benchmark_doc : pyvalue := PyDict [(PyStr "benchmarks", PyList [])].
Definition foo_doc : pyvalue := PyDict [(PyStr "foo", PyInt 1)].
Definition list_doc : pyvalue := PyList [PyStr "a"].

Definition objects : list (string * string) :=
  [ ("lm-eval.json", lm_eval_text);
    ("guidellm.yaml", benchmark_yaml_text);
    ("guidellm.json", benchmark_json_text);
    ("foo.json", foo_text);
    ("list.yaml", list_yaml_text);
    ("broken.yaml", broken_yaml_text) ].

Fixpoint lookup {A : Type} (k : string) (l : list (string * A)) : option A :=
  match l with
  | [] => None
  | (k', v) :: l' => if String.eqb k k' then Some v else lookup k l'
  end.

Definition store : S3Client :=
  mkClient (fun Bucket Key =>
    if String.eqb Bucket bucket
    then match lookup Key objects with
         | Some text => inr (mkObject (inr text))
         | None => inl (ClientError "NoSuchKey" "The specified key does not exist.")
         end
    else inl (ClientError "NoSuchBucket" "The specified bucket does not exist")).

(** A client without credentials, one whose store refuses access, and
    one whose endpoint does not answer. *)
Definition store_without_credentials : S3Client :=
  mkClient (fun _ _ => inl (NoCredentialsError "Unable to locate credentials")).

Definition store_access_denied : S3Client :=
  mkClient (fun _ _ => inl (ClientError "AccessDenied" "Access Denied")).

Definition store_unreachable : S3Client :=
  mkClient (fun Bucket Key =>
    inl (OtherException
           ("Could not connect to the endpoint URL: " ++ dq
            ++ "http://minio:9000/" ++ Bucket ++ "/" ++ Key ++ dq))).

(** Two stores that reject the credentials they are shown. *)
Definition store_unknown_access_key : S3Client :=
  mkClient (fun _ _ =>
    inl (ClientError
           "InvalidAccessKeyId"
           "The AWS Access Key Id you provided does not exist in our records.")).

Definition store_bad_signature : S3Client :=
  mkClient (fun _ _ => inl (ClientError "SignatureDoesNotMatch" "")).

Definition json_loads : string -> result pyvalue :=
  fun text =>
    match lookup text [ (lm_eval_text, lm_eval_doc);
                        (benchmark_json_text, benchmark_doc);
                        (foo_text, foo_doc) ] with
    | Some v => inr v
    | None => inl (JSONDecodeError "Expecting value: line 1 column 1 (char 0)")
    end.

Definition yaml_safe_load : string -> result pyvalue :=
  fun text =>
    match lookup text [ (lm_eval_text, lm_eval_doc);
                        (benchmark_yaml_text, benchmark_doc);
                        (benchmark_json_text, benchmark_doc);
                        (foo_text, foo_doc);
                        (list_yaml_text, list_doc) ] with
    | Some v => inr v
    | None => inl (YAMLError "while parsing a flow sequence")
    end.

(** The nesting of lists and dicts in a value. *)
Fixpoint depth (v : pyvalue) : nat :=
  match v with
  | PyList xs => S (fold_right (fun x d => Nat.max (depth x) d) 0 xs)
  | PyDict items =>
      S (fold_right
           (fun kv d => match kv with (_, x) => Nat.max (depth x) d end)
           0 items)
  | _ => 0
  end.

(** An object of the named type somewhere in a value. *)
Fixpoint has_object (type_name : string) (v : pyvalue) : bool :=
  match v with
  | PyObject t => String.eqb t type_name
  | PyList xs => existsb (has_object type_name) xs
  | PyDict items =>
      existsb
        (fun kv =>
           match kv with
           | (k, x) => has_object type_name k || has_object type_name x
           end)
        items
  | _ => false
  end.

(** The serialiser on the documents of the fixtures, as the provider of
    Flask answers on them: [bytes] have no rule, and the nesting of the
    deep document ends the recursion; the others serialise. *)
Definition dumps_raises (v : pyvalue) : option string :=
  if has_object "bytes" v
  then Some "Object of type bytes is not JSON serializable"
  else if (980 <=? depth v)%nat
  then Some "maximum recursion depth exceeded while encoding a JSON object"
  else None.

(** The route over this bucket. *)
Definition relay (client : S3Client) (file_key : string) : Response :=
  response_of (Some bucket) (Some client) json_loads yaml_safe_load
              dumps_raises (Some file_key).

(** Steps that settle the side conditions on the objects above. *)
Ltac fixture_retrieves text :=
  split; [ discriminate | ];
  exists bucket, store, (mkObject (inr text));
  repeat split; try reflexivity; discriminate.

Ltac fixture_raises client :=
  split; [ discriminate | ];
  exists bucket, client;
  repeat split; try (left; reflexivity); try reflexivity; discriminate.

Ltac fixture_shape :=
  repeat split; eexists _, _; (split; [ reflexivity | simpl; tauto ]).

Ltac fixture_no_key H :=
  let Hin := fresh in
  destruct H as (? & ? & [= <-] & Hin); simpl in Hin;
  repeat destruct Hin as [[=] | Hin]; exact Hin.


Ltac fixture_no_pair := let H := fresh in intros [H _]; fixture_no_key H.

(** Tapes of raw draws for the generator: one of mixed draws, one whose
    draws of [random.random()] all fall in the long class, and two whose
    first draw falls in the huge class and whose second draw gives 5 and
    50 lines of noise. *)
Definition tape_mixed (n : nat) : N :=
  (N.of_nat n * 7919 * 1000003 * 100000007 + 12345678901234567)%N.

Definition tape_long (n : nat) : N := PromptGen.lit_0_75.

Definition tape_huge_5 (n : nat) : N :=
  match n with
  | O => PromptGen.lit_0_90
  | _ => 0%N
  end.

Definition tape_huge_50 (n : nat) : N :=
  match n with
  | O => PromptGen.lit_0_90
  | _ => 45%N
  end.

End Fixtures.

(* ===================================================================== *)
(** ** More objects: texts on which a parser raises something else *)
(* ===================================================================== *)

Module EdgeFixtures.
Import PyStr ResultsUI.

(** An array nested five thousand deep, on which [json.loads] raises
    [RecursionError], and a date that the YAML timestamp pattern accepts
    and [datetime.date] refuses with [ValueError]. *)
Definition deep_text : string := mul "[" 5000 ++ mul "]" 5000.
Definition bad_date_text : string := "when: 2001-13-40".

(** A document with all three keys. *)
Definition all_keys_text : string :=
  "{" ++ dq ++ "results" ++ dq ++ ": {}, " ++ dq ++ "config" ++ dq
  ++ ": {}, " ++ dq ++ "benchmarks" ++ dq ++ ": []}".
Definition all_keys_doc : pyvalue :=
  PyDict [(PyStr "results", PyDict []); (PyStr "config", PyDict []);
          (PyStr "benchmarks", PyList [])].

Definition objects : list (string * string) :=
  [ ("deep.json", deep_text);
    ("bad-date.yaml", bad_date_text);
    ("all-keys.json", all_keys_text) ].

Definition store : S3Client :=
  mkClient (fun Bucket Key =>
    if String.eqb Bucket Fixtures.bucket
    then match Fixtures.lookup Key objects with
         | Some text => inr (mkObject (inr text))
         | None => inl (ClientError "NoSuchKey" "The specified key does not exist.")
         end
    else inl (ClientError "NoSuchBucket" "The specified bucket does not exist")).

Definition json_loads : string -> result pyvalue :=
  fun text =>
    if String.eqb text deep_text
    then inl (OtherException
                "maximum recursion depth exceeded while decoding a JSON array from a unicode string")
    else if String.eqb text all_keys_text then inr all_keys_doc
    else inl (JSONDecodeError "Expecting value: line 1 column 1 (char 0)").

Definition yaml_safe_load : string -> result pyvalue :=
  fun text =>
    if String.eqb text bad_date_text
    then inl (OtherException "month must be in 1..12")
    else if String.eqb text all_keys_text then inr all_keys_doc
    else inl (YAMLError "while parsing a flow node").

Definition relay (file_key : option string) : Response :=
  response_of (Some Fixtures.bucket) (Some store) json_loads yaml_safe_load
              Fixtures.dumps_raises file_key.

End EdgeFixtures.

(* ===================================================================== *)
(** ** More objects: documents that do not serialise *)
(* ===================================================================== *)

Module SerialiserFixtures.
Import PyStr ResultsUI.

(** [n + 1] lists, one in the other. *)
Fixpoint nest (n : nat) : pyvalue :=
  match n with
  | O => PyList []
  | S k => PyList [nest k]
  end.

(** An lm-eval document whose results are 980 lists one in the other:
    [json.loads] reads it, and serialising it back inside the request
    exceeds the recursion limit. *)
Definition deep_lm_eval_text : string :=
  "{" ++ dq ++ "results" ++ dq ++ ": " ++ mul "[" 980 ++ mul "]" 980
  ++ ", " ++ dq ++ "config" ++ dq ++ ": {}}".
Definition deep_lm_eval_doc : pyvalue :=
  PyDict [(PyStr "results", nest 979); (PyStr "config", PyDict [])].

(** A benchmark document with a binary scalar, which [yaml.safe_load]
    builds as [bytes]. *)
Definition binary_benchmark_text : string := "benchmarks: !!binary aGVsbG8=".
Definition binary_benchmark_doc : pyvalue :=
  PyDict [(PyStr "benchmarks", PyObject "bytes")].

Definition objects : list (string * string) :=
  [ ("deep-lm-eval.json", deep_lm_eval_text);
    ("binary.yaml", binary_benchmark_text) ].

Definition store : S3Client :=
  mkClient (fun Bucket Key =>
    if String.eqb Bucket Fixtures.bucket
    then match Fixtures.lookup Key objects with
         | Some text => inr (mkObject (inr text))
         | None => inl (ClientError "NoSuchKey" "The specified key does not exist.")
         end
    else inl (ClientError "NoSuchBucket" "The specified bucket does not exist")).

Definition json_loads : string -> result pyvalue :=
  fun text =>
    if String.eqb text deep_lm_eval_text then inr deep_lm_eval_doc
    else inl (JSONDecodeError "Expecting value: line 1 column 1 (char 0)").

Definition yaml_safe_load : string -> result pyvalue :=
  fun text =>
    if String.eqb text binary_benchmark_text then inr binary_benchmark_doc
    else if String.eqb text deep_lm_eval_text then inr deep_lm_eval_doc
    else inl (YAMLError "while parsing a flow node").

Definition relay (file_key : string) : Response :=
  response_of (Some Fixtures.bucket) (Some store) json_loads yaml_safe_load
              Fixtures.dumps_raises (Some file_key).

End SerialiserFixtures.

(* ===================================================================== *)
(** ** Facts about the string operations *)
(* ===================================================================== *)

Module PyStrFacts.
Import PyStr.

Lemma append_nil_r (s : string) : s ++ "" = s.
Proof. induction s as [ | c s IH]; simpl; [ | rewrite IH ]; reflexivity. Qed.

Lemma append_assoc (s t u : string) : (s ++ t) ++ u = s ++ (t ++ u).
Proof. induction s as [ | c s IH]; simpl; [ | rewrite IH ]; reflexivity. Qed.

Lemma length_append (s t : string) :
  String.length (s ++ t) = String.length s + String.length t.
Proof. induction s as [ | c s IH]; simpl; [ | rewrite IH ]; reflexivity. Qed.

Lemma append_inv_head (s t u : string) : s ++ t = s ++ u -> t = u.
Proof.
  induction s as [ | c s IH]; simpl; intros H; [ exact H | ].
  injection H as H. exact (IH H).
Qed.

Lemma append_inv_tail (s t u : string) : s ++ u = t ++ u -> s = t.
Proof.
  revert t. induction s as [ | c s IH]; intros [ | d t] H; simpl in H.
  - reflexivity.
  - apply (f_equal String.length) in H. simpl in H.
    rewrite length_append in H. lia.
  - apply (f_equal String.length) in H. simpl in H.
    rewrite length_append in H. lia.
  - injection H as -> H. f_equal. exact (IH _ H).
Qed.

Lemma append_eq_nil (s t : string) : s ++ t = "" -> s = "" /\ t = "".
Proof. destruct s; simpl; [ tauto | discriminate ]. Qed.

(** *** [strip] *)

Lemma rstrip_cons (c : ascii) (s : string) :
  rstrip (String c s)
  = match rstrip s with
    | "" => if is_space c then "" else String c ""
    | r => String c r
    end.
Proof. reflexivity. Qed.

(** What [rstrip] keeps stays in front of whatever follows. *)
Lemma rstrip_app (s t : string) :
  rstrip t <> "" -> rstrip (s ++ t) = s ++ rstrip t.
Proof.
  intros Ht. induction s as [ | c s IH]; [ reflexivity | ].
  simpl append. rewrite rstrip_cons, IH.
  destruct (s ++ rstrip t) eqn:E; [ | reflexivity ].
  apply append_eq_nil in E. tauto.
Qed.

Lemma rstrip_idempotent (s : string) : rstrip (rstrip s) = rstrip s.
Proof.
  induction s as [ | c s IH]; [ reflexivity | ].
  rewrite rstrip_cons. destruct (rstrip s) as [ | a r] eqn:E.
  - destruct (is_space c) eqn:Hc; [ reflexivity | ].
    simpl. rewrite Hc. reflexivity.
  - rewrite rstrip_cons, IH. reflexivity.
Qed.

(** [rstrip] never drops a first character that is not white. *)
Lemma rstrip_head (c : ascii) (s : string) :
  is_space c = false -> exists r, rstrip (String c s) = String c r.
Proof.
  intros Hc. rewrite rstrip_cons, Hc. destruct (rstrip s); eauto.
Qed.

Lemma lstrip_head (s : string) :
  lstrip s = "" \/ exists c r, lstrip s = String c r /\ is_space c = false.
Proof.
  induction s as [ | c s IH]; simpl; [ tauto | ].
  destruct (is_space c) eqn:Hc; [ exact IH | eauto ].
Qed.

Lemma lstrip_fixed (c : ascii) (s : string) :
  is_space c = false -> lstrip (String c s) = String c s.
Proof. intros Hc. simpl. rewrite Hc. reflexivity. Qed.

(** A stripped string is its own stripped form. *)
Lemma strip_idempotent (s : string) : strip (strip s) = strip s.
Proof.
  unfold strip.
  destruct (lstrip_head s) as [-> | (c & r & -> & Hc)]; [ reflexivity | ].
  destruct (rstrip_head c r Hc) as (r' & E).
  rewrite E, (lstrip_fixed _ _ Hc), <- E. apply rstrip_idempotent.
Qed.

(** A text whose first character after the white ones exists is not
    stripped to nothing. *)
Lemma strip_not_empty (s : string) (c : ascii) (r : string) :
  lstrip s = String c r -> is_space c = false -> strip s <> "".
Proof.
  intros E Hc. unfold strip. rewrite E.
  destruct (rstrip_head c r Hc) as (r' & ->). discriminate.
Qed.

Lemma lstrip_app (s t : string) :
  lstrip s <> "" -> lstrip (s ++ t) = lstrip s ++ t.
Proof.
  induction s as [ | c s IH]; simpl; [ congruence | ].
  destruct (is_space c); [ exact IH | reflexivity ].
Qed.

(** Between a head and a tail that both keep something, [strip] leaves
    the middle alone. *)
Lemma strip_app (s t : string) :
  lstrip s <> "" -> rstrip t <> "" -> strip (s ++ t) = lstrip s ++ rstrip t.
Proof.
  intros Hs Ht. unfold strip. rewrite (lstrip_app _ _ Hs).
  apply rstrip_app, Ht.
Qed.

(** *** Repetition *)

Lemma repeat_nat_length (s : string) (n : nat) :
  String.length (repeat_nat s n) = n * String.length s.
Proof.
  induction n as [ | n IH]; simpl; [ | rewrite length_append, IH ]; reflexivity.
Qed.

(** Repetitions of a line that ends in a character that is not white
    are untouched by [rstrip]. *)
Lemma rstrip_repeat (s : string) (n : nat) :
  rstrip s = s -> s <> "" ->
  rstrip (repeat_nat s (S n)) = repeat_nat s (S n).
Proof.
  intros Hs Hne. induction n as [ | n IH].
  - simpl. rewrite append_nil_r. exact Hs.
  - change (repeat_nat s (S (S n))) with (s ++ repeat_nat s (S n)).
    rewrite rstrip_app; rewrite IH; [ reflexivity | ].
    simpl. intros E. apply append_eq_nil in E. tauto.
Qed.

(** *** [json.dumps] keeps a record on one line *)

Lemma mem_char_append (c : ascii) (s t : string) :
  mem_char c (s ++ t) = mem_char c s || mem_char c t.
Proof.
  induction s as [ | d s IH]; simpl; [ reflexivity | ].
  rewrite IH, orb_assoc. reflexivity.
Qed.

Lemma json_escape_char_no_lf (c : ascii) :
  mem_char LF (json_escape_char c) = false.
Proof. destruct c as [[] [] [] [] [] [] [] []]; reflexivity. Qed.

Lemma json_escape_no_lf (s : string) : mem_char LF (json_escape s) = false.
Proof.
  induction s as [ | c s IH]; simpl; [ reflexivity | ].
  rewrite mem_char_append, json_escape_char_no_lf, IH. reflexivity.
Qed.

Lemma json_dumps_str_no_lf (s : string) :
  mem_char LF (json_dumps_str s) = false.
Proof.
  unfold json_dumps_str.
  rewrite !mem_char_append, json_escape_no_lf. reflexivity.
Qed.

(** *** Lines *)

Lemma lines_from_line (cur l rest : string) :
  mem_char LF l = false ->
  lines_from cur (l ++ nl ++ rest) = (cur ++ l) :: lines_from "" rest.
Proof.
  revert cur. induction l as [ | c l IH]; intros cur H.
  - rewrite append_nil_r. reflexivity.
  - cbn [mem_char] in H. apply orb_false_elim in H. destruct H as [Hc Hl].
    cbn [append lines_from].
    rewrite Ascii.eqb_sym, Hc, (IH _ Hl), append_assoc. reflexivity.
Qed.

Lemma cat_cons (x : string) (xs : list string) : cat (x :: xs) = x ++ cat xs.
Proof. reflexivity. Qed.

Lemma cat_app (xs ys : list string) :
  cat (xs ++ ys)%list = cat xs ++ cat ys.
Proof.
  induction xs as [ | x xs IH]; [ reflexivity | ].
  rewrite <- app_comm_cons, !cat_cons, IH, append_assoc. reflexivity.
Qed.

Lemma lines_cat {A : Type} (f : A -> string) (xs : list A) :
  (forall x, mem_char LF (f x) = false) ->
  lines (cat (map (fun x => f x ++ nl) xs)) = map f xs.
Proof.
  intros Hf. unfold lines. induction xs as [ | x xs IH]; [ reflexivity | ].
  cbn [map]. rewrite cat_cons, append_assoc.
  rewrite (lines_from_line _ _ _ (Hf x)), IH. reflexivity.
Qed.

(** *** The [03d] format *)

Lemma number_of_zero_fill (k : nat) (s : string) :
  number_of (repeat_nat "0" k ++ s) = number_of s.
Proof.
  induction k as [ | k IH]; [ reflexivity | ].
  simpl. unfold number_of in *. simpl.
  rewrite <- IH. destruct (NilEmpty.uint_of_string (repeat_nat "0" k ++ s));
    reflexivity.
Qed.

Lemma number_of_format_03d (i : nat) : number_of (format_03d i) = Some i.
Proof.
  unfold format_03d. rewrite number_of_zero_fill. unfold number_of.
  rewrite NilEmpty.usu. simpl. f_equal. apply DecimalNat.Unsigned.of_to.
Qed.

Lemma format_03d_injective (i j : nat) : format_03d i = format_03d j -> i = j.
Proof.
  intros H. apply (f_equal number_of) in H.
  rewrite !number_of_format_03d in H. congruence.
Qed.

(** Below 1000 the format is the three digits of the number. *)
Lemma format_03d_three_digits (i : nat) :
  i < 1000 -> format_03d i = three_digits i.
Proof.
  intros Hi.
  assert (H : forallb (fun k => String.eqb (format_03d k) (three_digits k))
                      (seq 0 1000) = true) by (vm_compute; reflexivity).
  rewrite forallb_forall in H. apply String.eqb_eq, H, in_seq. lia.
Qed.

End PyStrFacts.

(* ===================================================================== *)
(** ** The prompt corpus generator *)
(* ===================================================================== *)

Module PromptGenSpec.
Import PyStr PyStrFacts PromptGen.

(** *** One turn of the loop *)

Lemma run_pick_prompt_text (i : nat) (p : Proc) :
  runState (pick_prompt_text i) p
  = match class_of (rand_val_of p) with
    | Short => runState (choice short_prompts) (after_draws 1 p)
    | Medium => runState (choice medium_prompts) (after_draws 1 p)
    | Long => (long_prompt_text i, after_draws 1 p)
    | Huge =>
        (huge_prompt_text (evalState (randint 5 50) (after_draws 1 p)),
         after_draws 2 p)
    end.
Proof.
  unfold pick_prompt_text, class_of, rand_val_of, random, next_raw.
  cbn -[N.ltb N.modulo lit_0_40 lit_0_75 lit_0_90 two53 choice randint
        long_prompt_text huge_prompt_text short_prompts medium_prompts].
  repeat destruct (_ <? _)%N; reflexivity.
Qed.

Lemma eval_choice (seq : list string) (p : Proc) :
  evalState (choice seq) p
  = nth (N.to_nat (tape p (pos p) mod N.of_nat (List.length seq))) seq "".
Proof. reflexivity. Qed.

Lemma exec_choice (seq : list string) (p : Proc) :
  execState (choice seq) p = after_draws 1 p.
Proof. reflexivity. Qed.

Lemma eval_randint (a b : Z) (p : Proc) :
  evalState (randint a b) p = (a + Z.of_N (tape p (pos p)) mod (b - a + 1))%Z.
Proof. reflexivity. Qed.

(** [random.choice] gives an element of its list. *)
Lemma choice_in (seq : list string) (p : Proc) :
  seq <> [] -> In (evalState (choice seq) p) seq.
Proof.
  intros Hne. rewrite eval_choice. apply nth_In.
  assert (0 < List.length seq) by (destruct seq; simpl; [ congruence | lia ]).
  pose proof (N.mod_lt (tape p (pos p)) (N.of_nat (List.length seq))). lia.
Qed.

(** [random.randint(a, b)] gives an integer of [a..b], and any of them. *)
Lemma randint_range (a b : Z) (p : Proc) :
  (a <= b)%Z -> (a <= evalState (randint a b) p <= b)%Z.
Proof.
  intros Hab. rewrite eval_randint.
  pose proof (Z.mod_pos_bound (Z.of_N (tape p (pos p))) (b - a + 1)). lia.
Qed.

Lemma randint_any (a b n : Z) (p : Proc) :
  (a <= n <= b)%Z -> tape p (pos p) = Z.to_N (n - a) ->
  evalState (randint a b) p = n.
Proof.
  intros Hn Ht. rewrite eval_randint, Ht, Z2N.id by lia.
  rewrite Z.mod_small by lia. lia.
Qed.

(** The file is touched by [f.write] alone. *)
Lemma pick_keeps_file (i : nat) (p : Proc) :
  file (execState (pick_prompt_text i) p) = file p.
Proof.
  unfold execState. rewrite run_pick_prompt_text.
  destruct (class_of (rand_val_of p)); reflexivity.
Qed.

Lemma file_loop_body (i : nat) (p : Proc) :
  file (execState (loop_body i) p)
  = file p ++ json_dumps (written i p) ++ nl.
Proof.
  rewrite <- (pick_keeps_file i p).
  unfold loop_body, written, execState, evalState, f_write.
  cbn -[pick_prompt_text json_dumps strip].
  destruct (runState (pick_prompt_text i) p). reflexivity.
Qed.

Lemma exec_for_range_succ (body : nat -> Run unit) (first count : nat)
      (p : Proc) :
  execState (for_range body first (S count)) p
  = execState (for_range body (S first) count) (execState (body first) p).
Proof.
  unfold execState. cbn -[for_range]. cbn [for_range].
  cbn. destruct (runState (body first) p). reflexivity.
Qed.

(** The file after the loop: what was there, then one line for each
    record. *)
Lemma file_for_range (first count : nat) (p : Proc) :
  file (execState (for_range loop_body first count) p)
  = file p
    ++ cat (map (fun r => json_dumps r ++ nl) (records_from first count p)).
Proof.
  revert first p. induction count as [ | count IH]; intros first p.
  - simpl. rewrite append_nil_r. reflexivity.
  - rewrite exec_for_range_succ, IH, file_loop_body.
    cbn [records_from map]. rewrite cat_cons, !append_assoc. reflexivity.
Qed.

Lemma records_from_length (first count : nat) (p : Proc) :
  List.length (records_from first count p) = count.
Proof.
  revert first p. induction count as [ | count IH]; intros first p; simpl;
    [ | rewrite IH ]; reflexivity.
Qed.

Lemma records_from_all (P : record -> Prop) :
  (forall i p, P (written i p)) ->
  forall first count p, Forall P (records_from first count p).
Proof.
  intros H first count. revert first.
  induction count as [ | count IH]; intros first p; simpl; constructor; auto.
Qed.

Lemma json_dumps_no_lf (r : record) : mem_char LF (json_dumps r) = false.
Proof.
  unfold json_dumps.
  rewrite !mem_char_append, !json_dumps_str_no_lf. reflexivity.
Qed.

(** *** The four classes of prompt *)

Lemma replace_in_long_template (new : string) :
  replace "deploy-using-helm" new long_yaml_example
  = long_before ++ new ++ long_after.
Proof. vm_compute. reflexivity. Qed.

Lemma long_template_split :
  long_yaml_example = long_before ++ "deploy-using-helm" ++ long_after.
Proof. vm_compute. reflexivity. Qed.

Lemma strip_long_prompt_text (i : nat) :
  strip (long_prompt_text i)
  = lstrip long_before
    ++ ("deploy-using-helm-" ++ format_03d i) ++ rstrip long_after.
Proof.
  assert (Hafter : rstrip long_after <> "") by (vm_compute; discriminate).
  unfold long_prompt_text. rewrite replace_in_long_template.
  rewrite strip_app, rstrip_app.
  - reflexivity.
  - exact Hafter.
  - vm_compute. discriminate.
  - rewrite rstrip_app by exact Hafter. discriminate.
Qed.

Lemma long_prompts_differ (i j : nat) :
  i <> j -> strip (long_prompt_text i) <> strip (long_prompt_text j).
Proof.
  intros Hij E. rewrite !strip_long_prompt_text in E.
  apply append_inv_head, append_inv_tail, append_inv_head in E.
  apply Hij, format_03d_injective, E.
Qed.

Lemma rstrip_spam (k : nat) :
  rstrip (repeat_nat spam_line (S k)) = repeat_nat spam_line (S k).
Proof. apply rstrip_repeat; [ vm_compute; reflexivity | discriminate ]. Qed.

Lemma strip_huge_prompt_text (n : Z) :
  (1 <= n)%Z ->
  strip (huge_prompt_text n)
  = lstrip huge_stack_trace_example ++ mul spam_line n.
Proof.
  intros Hn. unfold huge_prompt_text, mul.
  destruct (Z.to_nat n) as [ | k] eqn:E; [ lia | ].
  rewrite strip_app, rstrip_spam.
  - reflexivity.
  - vm_compute. discriminate.
  - rewrite rstrip_spam. discriminate.
Qed.

Lemma strip_huge_prompt_text_no_spam (n : Z) :
  (n <= 0)%Z -> strip (huge_prompt_text n) = strip huge_stack_trace_example.
Proof.
  intros Hn. unfold huge_prompt_text, mul.
  replace (Z.to_nat n) with 0 by lia. cbn [repeat_nat].
  rewrite append_nil_r. reflexivity.
Qed.

(** The length of a stripped huge prompt: the stripped template, the line
    feed that closed it, and 39 characters for each line of noise. *)
Lemma huge_prompt_length (n : Z) :
  String.length (strip (huge_prompt_text n))
  = if (1 <=? n)%Z
    then String.length (strip huge_stack_trace_example) + 1 + 39 * Z.to_nat n
    else String.length (strip huge_stack_trace_example).
Proof.
  destruct (Z.leb_spec 1 n) as [Hn | Hn].
  - rewrite (strip_huge_prompt_text _ Hn), length_append.
    unfold mul. rewrite repeat_nat_length.
    change (String.length spam_line) with 39.
    replace (String.length (lstrip huge_stack_trace_example))
      with (String.length (strip huge_stack_trace_example) + 1)
      by (vm_compute; reflexivity).
    lia.
  - rewrite strip_huge_prompt_text_no_spam by lia. reflexivity.
Qed.

Lemma huge_prompt_length_monotone (n m : Z) :
  (n <= m)%Z ->
  String.length (strip (huge_prompt_text n))
  <= String.length (strip (huge_prompt_text m)).
Proof.
  intros Hnm. rewrite !huge_prompt_length.
  destruct (Z.leb_spec 1 n), (Z.leb_spec 1 m); lia.
Qed.

Lemma pool_not_blank (seq : list string) (p : Proc) :
  seq <> [] ->
  forallb (fun s => negb (String.eqb (strip s) "")) seq = true ->
  strip (evalState (choice seq) p) <> "".
Proof.
  intros Hne Hall. rewrite forallb_forall in Hall.
  specialize (Hall _ (choice_in seq p Hne)).
  apply negb_true_iff, String.eqb_neq in Hall. exact Hall.
Qed.

(** Whatever the class, the stripped prompt has something in it. *)
Lemma picked_not_blank (i : nat) (p : Proc) :
  strip (evalState (pick_prompt_text i) p) <> "".
Proof.
  unfold evalState. rewrite run_pick_prompt_text.
  destruct (class_of (rand_val_of p)).
  - apply pool_not_blank; [ discriminate | vm_compute; reflexivity ].
  - apply pool_not_blank; [ discriminate | vm_compute; reflexivity ].
  - cbn [fst]. rewrite strip_long_prompt_text. intros E.
    apply append_eq_nil in E. destruct E as [E _]. vm_compute in E.
    discriminate.
  - cbn [fst]. intros E. apply (f_equal String.length) in E.
    rewrite huge_prompt_length in E.
    pose proof (randint_range 5 50 (after_draws 1 p) ltac:(lia)) as Hr.
    destruct (Z.leb_spec 1 (evalState (randint 5 50) (after_draws 1 p)));
      [ simpl in E; lia | lia ].
Qed.

Lemma written_of_class (i : nat) (p : Proc) :
  prompt (written i p)
  = strip match class_of (rand_val_of p) with
          | Short => evalState (choice short_prompts) (after_draws 1 p)
          | Medium => evalState (choice medium_prompts) (after_draws 1 p)
          | Long => long_prompt_text i
          | Huge =>
              huge_prompt_text (evalState (randint 5 50) (after_draws 1 p))
          end.
Proof.
  unfold written, evalState. cbn [prompt]. rewrite run_pick_prompt_text.
  destruct (class_of (rand_val_of p)); reflexivity.
Qed.

(** *** The claims *)

(** C8: a record of the long class at index [i] holds the long template
    in which the identifier [deploy-using-helm] has become
    [deploy-using-helm-] followed by [i] zero-padded to three digits, and
    two long records written at distinct indices differ. *)
Theorem long_record_carries_its_index (i : nat) (p : Proc) :
  class_of (rand_val_of p) = Long ->
  long_yaml_example = long_before ++ "deploy-using-helm" ++ long_after /\
  file (execState (loop_body i) p)
  = file p ++ json_dumps (written i p) ++ nl /\
  prompt (written i p)
  = strip (long_before ++ ("deploy-using-helm-" ++ format_03d i) ++ long_after)
  /\
  (i < 1000 -> format_03d i = three_digits i) /\
  (forall j q, class_of (rand_val_of q) = Long -> i <> j ->
               prompt (written i p) <> prompt (written j q)).
Proof.
  intros Hp.
  assert (Hw : forall k r, class_of (rand_val_of r) = Long ->
                           prompt (written k r) = strip (long_prompt_text k)).
  { intros k r Hr. rewrite written_of_class, Hr. reflexivity. }
  split; [ exact long_template_split | ].
  split; [ apply file_loop_body | ].
  split; [ rewrite (Hw _ _ Hp); unfold long_prompt_text;
           rewrite replace_in_long_template; reflexivity | ].
  split; [ apply format_03d_three_digits | ].
  intros j q Hq Hij. rewrite (Hw _ _ Hp), (Hw _ _ Hq).
  apply long_prompts_differ, Hij.
Qed.

(** C9: a record of the huge class holds the huge template followed by a
    number of noise lines drawn from 5 to 50; its stripped length is
    strictly above that of the stripped template alone, and of two huge
    records the one with no more noise lines is no longer. *)
Theorem huge_record_grows_with_noise (i : nat) (p : Proc) :
  class_of (rand_val_of p) = Huge ->
  let extra_spam_lines := evalState (randint 5 50) (after_draws 1 p) in
  (5 <= extra_spam_lines <= 50)%Z /\
  file (execState (loop_body i) p)
  = file p ++ json_dumps (written i p) ++ nl /\
  prompt (written i p) = strip (huge_prompt_text extra_spam_lines) /\
  String.length (strip huge_stack_trace_example)
  < String.length (prompt (written i p)) /\
  (forall j q, class_of (rand_val_of q) = Huge ->
     (extra_spam_lines <= evalState (randint 5 50) (after_draws 1 q))%Z ->
     String.length (prompt (written i p))
     <= String.length (prompt (written j q))).
Proof.
  intros Hp n.
  assert (Hw : forall k r, class_of (rand_val_of r) = Huge ->
             prompt (written k r)
             = strip (huge_prompt_text
                        (evalState (randint 5 50) (after_draws 1 r)))).
  { intros k r Hr. rewrite written_of_class, Hr. reflexivity. }
  assert (Hn : (5 <= n <= 50)%Z) by (apply randint_range; lia).
  split; [ exact Hn | ].
  split; [ apply file_loop_body | ].
  split; [ apply (Hw _ _ Hp) | ].
  split.
  - rewrite (Hw _ _ Hp). fold n. rewrite huge_prompt_length.
    destruct (Z.leb_spec 1 n); lia.
  - intros j q Hq Hle. rewrite (Hw _ _ Hp), (Hw _ _ Hq).
    apply huge_prompt_length_monotone, Hle.
Qed.

(** *** The theorems on the tapes of [Fixtures] *)

Import Fixtures.

Lemma long_record_carries_its_index_witness :
  prompt (written 7 (start tape_long))
  = strip (long_before ++ "deploy-using-helm-007" ++ long_after) /\
  prompt (written 7 (start tape_long))
  <> prompt (written 8 (after_draws 1 (start tape_long))).
Proof.
  destruct (long_record_carries_its_index 7 (start tape_long) eq_refl)
    as (_ & _ & Hprompt & _ & Hdiffer).
  split.
  - exact Hprompt.
  - apply Hdiffer; [ reflexivity | discriminate ].
Defined.

Lemma huge_record_grows_with_noise_witness :
  prompt (written 3 (start tape_huge_5)) = strip (huge_prompt_text 5) /\
  String.length (strip huge_stack_trace_example)
  < String.length (prompt (written 3 (start tape_huge_5))) /\
  String.length (prompt (written 3 (start tape_huge_5)))
  <= String.length (prompt (written 4 (start tape_huge_50))).
Proof.
  destruct (huge_record_grows_with_noise 3 (start tape_huge_5) eq_refl)
    as (_ & _ & Hprompt & Hlonger & Hgrows).
  split; [ exact Hprompt | ].
  split; [ exact Hlonger | ].
  apply Hgrows; [ reflexivity | vm_compute; discriminate ].
Defined.

End PromptGenSpec.

(* ===================================================================== *)
(** ** The operations on concrete inputs *)
(* ===================================================================== *)

Module Tests.
Import PyStr PromptGen PromptGenSpec Fixtures.

Example strip_both_ends :
  strip (nl ++ "  list pods " ++ nl) = "list pods".
Proof. reflexivity. Qed.

Example strip_keeps_inner_space : strip " a  b " = "a  b".
Proof. reflexivity. Qed.

Example strip_all_white : strip ("  " ++ nl) = "".
Proof. reflexivity. Qed.

Example replace_every_occurrence : replace "ab" "x" "abcabab" = "xcxx".
Proof. reflexivity. Qed.

Example replace_without_overlap : replace "aa" "b" "aaa" = "ba".
Proof. reflexivity. Qed.

Example replace_empty_old : replace "" "-" "abc" = "-a-b-c-".
Proof. reflexivity. Qed.

Example mul_three : mul "ab" 3 = "ababab".
Proof. reflexivity. Qed.

Example mul_negative : mul "ab" (-2) = "".
Proof. reflexivity. Qed.

Example format_03d_one_digit : format_03d 7 = "007".
Proof. reflexivity. Qed.

Example format_03d_two_digits : format_03d 42 = "042".
Proof. reflexivity. Qed.

Example format_03d_four_digits : format_03d 1234 = "1234".
Proof. reflexivity. Qed.

Example json_dumps_escapes :
  json_dumps (mkRecord ("say " ++ dq ++ "hi" ++ dq ++ nl ++ "\"))
  = "{" ++ dq ++ "prompt" ++ dq ++ ": " ++ dq
    ++ "say \" ++ dq ++ "hi\" ++ dq ++ "\n\\" ++ dq ++ "}".
Proof. reflexivity. Qed.

Example long_template_length : String.length long_yaml_example = 549.
Proof. reflexivity. Qed.

Example huge_template_length : String.length huge_stack_trace_example = 751.
Proof. reflexivity. Qed.

Example spam_line_length : String.length spam_line = 39.
Proof. reflexivity. Qed.

Example long_template_has_one_identifier :
  replace "deploy-using-helm" "" long_yaml_example = long_before ++ long_after
  /\ contains "deploy-using-helm" (long_before ++ long_after) = false.
Proof. split; vm_compute; reflexivity. Qed.

Example class_thresholds :
  map class_of [0; 3602879701896396; 3602879701896397; 6755399441055743;
                6755399441055744; 8106479329266892; 8106479329266893;
                9007199254740991]%N
  = [Short; Short; Medium; Medium; Long; Long; Huge; Huge].
Proof. reflexivity. Qed.

Example relay_yaml_benchmark :
  relay store "guidellm.yaml"
  = ResultsUI.mkResponse
      (ResultsUI.envelope "benchmark" benchmark_doc "guidellm.yaml") 200.
Proof. reflexivity. Qed.

Example relay_calls_the_store_once :
  ResultsUI.calls_of (Some bucket) (Some store) json_loads yaml_safe_load
                     dumps_raises (Some "foo.json")
  = [ResultsUI.GetObject bucket "foo.json"].
Proof. reflexivity. Qed.

Example relay_without_key :
  ResultsUI.status
    (ResultsUI.response_of (Some bucket) (Some store) json_loads
                           yaml_safe_load dumps_raises None) = 400.
Proof. reflexivity. Qed.

Example mixed_run_has_100_lines :
  List.length (lines (output tape_mixed)) = 100.
Proof. vm_compute. reflexivity. Qed.

Example huge_record_of_five_lines :
  String.length (prompt (written 0 (start tape_huge_5))) = 749 + 1 + 39 * 5.
Proof. vm_compute. reflexivity. Qed.

End Tests.

(* ===================================================================== *)
(** ** The relay: classification and errors *)
(* ===================================================================== *)

Module ResultsUISpec.
Import PyStr ResultsUI.

(** The test of the code and the shape of the specification agree. *)
Lemma py_in_mapping_with_key (key : string) (data : pyvalue) :
  is_dict data && py_in key data = true <-> mapping_with_key key data.
Proof.
  unfold mapping_with_key. split.
  - destruct data as [ | | | | | | items | ]; simpl; try discriminate.
    intros H. apply existsb_exists in H. destruct H as [[k v] [Hin Hk]].
    simpl in Hk. destruct k; simpl in Hk; try discriminate.
    apply String.eqb_eq in Hk. subst. eauto.
  - intros (items & v & -> & Hin). simpl.
    apply existsb_exists. exists (PyStr key, v). split; [ exact Hin | ].
    simpl. apply String.eqb_refl.
Qed.

Lemma lm_eval_test_iff (data : pyvalue) :
  is_dict data && py_in "results" data && py_in "config" data = true
  <-> lm_eval_shape data.
Proof.
  unfold lm_eval_shape.
  rewrite <- !py_in_mapping_with_key, !andb_true_iff. tauto.
Qed.

Lemma lm_eval_test_false (data : pyvalue) :
  ~ lm_eval_shape data ->
  is_dict data && py_in "results" data && py_in "config" data = false.
Proof.
  intros H. apply not_true_is_false. intros E. apply H, lm_eval_test_iff, E.
Qed.


Lemma not_str_false (x : option string) :
  not_str x = false <-> exists s, x = Some s /\ s <> "".
Proof.
  destruct x as [s | ]; simpl.
  - rewrite String.eqb_neq. split; [ eauto | ]. intros (s' & [= <-] & H). exact H.
  - split; [ discriminate | ]. intros (s' & [=] & _).
Qed.

Lemma not_str_some (s : string) : s <> "" -> not_str (Some s) = false.
Proof. intros H. apply not_str_false. eauto. Qed.

Section Route.

Variable S3_BUCKET_NAME : option string.
Variable s3_client : option S3Client.
Variable json_loads : string -> result pyvalue.
Variable yaml_safe_load : string -> result pyvalue.
Variable dumps_raises : pyvalue -> option string.

Abbreviation response_of :=
  (response_of S3_BUCKET_NAME s3_client json_loads yaml_safe_load
               dumps_raises).
Abbreviation serve :=
  (serve S3_BUCKET_NAME s3_client json_loads yaml_safe_load dumps_raises).
Abbreviation calls_of :=
  (calls_of S3_BUCKET_NAME s3_client json_loads yaml_safe_load dumps_raises).
Abbreviation retrieves := (retrieves S3_BUCKET_NAME s3_client).
Abbreviation retrieval_raises := (retrieval_raises S3_BUCKET_NAME s3_client).
Abbreviation json_attempt :=
  (json_attempt json_loads yaml_safe_load dumps_raises).
Abbreviation yaml_attempt := (yaml_attempt yaml_safe_load dumps_raises).

(** Once the text is there, the answer is that of the JSON attempt, and
    exactly one call went out. *)
Lemma serve_retrieved (file_key file_content : string) :
  retrieves file_key file_content ->
  exists Bucket,
    S3_BUCKET_NAME = Some Bucket /\
    serve (Some file_key)
    = (json_attempt file_key file_content, [GetObject Bucket file_key]).
Proof.
  intros (Hkey & Bucket & client & o & HB & HBne & Hc & Hget & Hbody).
  exists Bucket. split; [ exact HB | ].
  unfold ResultsUI.serve, get_benchmark_data, fetch, get_object.
  rewrite (not_str_some _ Hkey), HB, (not_str_some _ HBne), Hc.
  cbn. rewrite Hget, Hbody. reflexivity.
Qed.

Lemma response_retrieved (file_key file_content : string) :
  retrieves file_key file_content ->
  response_of (Some file_key) = json_attempt file_key file_content.
Proof.
  intros H. destruct (serve_retrieved _ _ H) as (Bucket & _ & E).
  unfold ResultsUI.response_of. rewrite E. reflexivity.
Qed.

(** A text that is not lm-eval JSON goes on to the YAML attempt. *)
Lemma json_attempt_falls_through (file_key file_content : string) :
  not_lm_eval_json json_loads file_content ->
  json_attempt file_key file_content = yaml_attempt file_key file_content.
Proof.
  unfold ResultsUI.json_attempt, json_try.
  intros [(msg & E) | (data & E & Hshape)]; rewrite E.
  - reflexivity.
  - rewrite (lm_eval_test_false _ Hshape). reflexivity.
Qed.

(** What becomes of an envelope: the answer with status 200 when it
    serialises, the answer of the [except Exception] clause of its step
    otherwise. *)
Lemma json_attempt_lm_eval (file_key file_content : string) (data : pyvalue) :
  json_loads file_content = inr data ->
  lm_eval_shape data ->
  json_attempt file_key file_content
  = match dumps_raises (envelope "lm-eval" data file_key) with
    | None => mkResponse (envelope "lm-eval" data file_key) 200
    | Some msg =>
        mkResponse (error_dict ("Error during JSON processing: " ++ msg)) 500
    end.
Proof.
  intros Hj Hshape. apply lm_eval_test_iff in Hshape.
  unfold ResultsUI.json_attempt, json_try, jsonify.
  rewrite Hj, Hshape.
  destruct (dumps_raises (envelope "lm-eval" data file_key)); reflexivity.
Qed.

Lemma yaml_attempt_benchmark (file_key file_content : string) (data : pyvalue) :
  yaml_safe_load file_content = inr data ->
  benchmark_shape data ->
  yaml_attempt file_key file_content
  = match dumps_raises (envelope "benchmark" data file_key) with
    | None => mkResponse (envelope "benchmark" data file_key) 200
    | Some msg =>
        mkResponse (error_dict ("Error during YAML processing: " ++ msg)) 500
    end.
Proof.
  intros Hy Hshape. apply py_in_mapping_with_key in Hshape.
  unfold ResultsUI.yaml_attempt, yaml_try, jsonify.
  rewrite Hy, Hshape.
  destruct (dumps_raises (envelope "benchmark" data file_key)); reflexivity.
Qed.

(** X20, step 1 of the route: a request without a [file] parameter, or
    with an empty one, is a client error with status 400, whatever the
    configuration, and nothing is asked of the store. *)
Lemma missing_file_parameter_is_rejected (file_key : option string) :
  file_key = None \/ file_key = Some "" ->
  serve file_key
  = (mkResponse (error_dict "No 'file' parameter specified in URL.") 400, []).
Proof. intros [-> | ->]; reflexivity. Qed.

(** C1, as the code has it: a text that [json.loads] turns into a
    mapping with a [results] key and a [config] key is answered with
    status 200 and the body [{fileType: "lm-eval", data: <the parsed
    document>, fileName: <the requested key>}] when that body serialises;
    when serialising it raises, the [except Exception] clause of the JSON
    step answers with status 500 and "Error during JSON processing: "
    followed by the text of the exception. *)
Theorem lm_eval_document_is_relayed_if_it_serialises
        (file_key file_content : string) (data : pyvalue) :
  retrieves file_key file_content ->
  json_loads file_content = inr data ->
  lm_eval_shape data ->
  let document :=
    PyDict [(PyStr "fileType", PyStr "lm-eval");
            (PyStr "data", data);
            (PyStr "fileName", PyStr file_key)] in
  response_of (Some file_key)
  = match dumps_raises document with
    | None => mkResponse document 200
    | Some msg =>
        mkResponse
          (PyDict [(PyStr "error",
                    PyStr ("Error during JSON processing: " ++ msg))])
          500
    end.
Proof.
  intros Hr Hj Hshape document.
  rewrite (response_retrieved _ _ Hr), (json_attempt_lm_eval _ _ _ Hj Hshape).
  reflexivity.
Qed.

(** C2, as the code has it: a text that is not classified as lm-eval,
    because the JSON parse fails or gives another shape, and that
    [yaml.safe_load] turns into a mapping with a [benchmarks] key, is
    answered with status 200, file type "benchmark", the parsed value as
    data and the requested key as file name when that body serialises;
    when serialising it raises, the [except Exception] clause of the YAML
    step answers with status 500 and "Error during YAML processing: "
    followed by the text of the exception.  A text that parses as JSON
    into a mapping with [benchmarks] and without the pair [results],
    [config] is one case of it. *)
Theorem benchmark_document_is_relayed_if_it_serialises
        (file_key file_content : string) (data : pyvalue) :
  retrieves file_key file_content ->
  not_lm_eval_json json_loads file_content ->
  yaml_safe_load file_content = inr data ->
  benchmark_shape data ->
  let document :=
    PyDict [(PyStr "fileType", PyStr "benchmark");
            (PyStr "data", data);
            (PyStr "fileName", PyStr file_key)] in
  response_of (Some file_key)
  = match dumps_raises document with
    | None => mkResponse document 200
    | Some msg =>
        mkResponse
          (PyDict [(PyStr "error",
                    PyStr ("Error during YAML processing: " ++ msg))])
          500
    end.
Proof.
  intros Hr Hn Hy Hshape document.
  rewrite (response_retrieved _ _ Hr), (json_attempt_falls_through _ _ Hn).
  rewrite (yaml_attempt_benchmark _ _ _ Hy Hshape). reflexivity.
Qed.


(** C4, as the code has it: the three kinds of retrieval failure.  When
    the store reports [NoSuchKey] the answer is 404 with a not-found
    message that names the key; when no credentials are found
    ([NoCredentialsError]) it is 500 with the message about the
    credentials; every other failure of the store or the transport,
    credentials that the store rejects among them, gives 500 with a
    generic message built from the failure's own text. *)
Theorem retrieval_failures_are_told_apart (file_key : string) (e : exn) :
  retrieval_raises file_key e ->
  (forall Message, e = ClientError "NoSuchKey" Message ->
     response_of (Some file_key)
     = mkResponse (error_dict ("File not found in S3 bucket: " ++ file_key)) 404)
  /\
  (forall msg, e = NoCredentialsError msg ->
     response_of (Some file_key)
     = mkResponse (error_dict "Server S3 credentials are invalid or missing.") 500)
  /\
  ((forall Message, e <> ClientError "NoSuchKey" Message) ->
   (forall msg, e <> NoCredentialsError msg) ->
   response_of (Some file_key)
   = mkResponse
       (error_dict match e with
                   | ClientError _ Message => "S3 Error: " ++ Message
                   | _ => "An unexpected error occurred: " ++ str e
                   end)
       500).
Proof.
  intros (Hkey & Bucket & client & HB & HBne & Hc & Hraise).
  assert (E : response_of (Some file_key)
              = match e with
                | NoCredentialsError _ =>
                    mkResponse (error_dict "Server S3 credentials are invalid or missing.") 500
                | ClientError Code Message =>
                    if String.eqb Code "NoSuchKey"
                    then mkResponse (error_dict ("File not found in S3 bucket: " ++ file_key)) 404
                    else mkResponse (error_dict ("S3 Error: " ++ Message)) 500
                | _ => mkResponse (error_dict ("An unexpected error occurred: " ++ str e)) 500
                end).
  { unfold ResultsUI.response_of, ResultsUI.serve, get_benchmark_data, fetch,
      get_object.
    rewrite (not_str_some _ Hkey), HB, (not_str_some _ HBne), Hc. cbn.
    destruct Hraise as [Hget | (o & Hget & Hbody)]; rewrite Hget; cbn;
      [ | rewrite Hbody ];
      destruct e as [ | Code Message | | | ]; cbn; try reflexivity;
      destruct (String.eqb Code "NoSuchKey"); reflexivity. }
  rewrite E. repeat split.
  - intros Message ->. reflexivity.
  - intros msg ->. reflexivity.
  - intros Hnk Hnc. destruct e as [ msg | Code Message | | | ]; try reflexivity.
    + destruct (Hnc msg eq_refl).
    + destruct (String.eqb_spec Code "NoSuchKey") as [-> | _]; [ | reflexivity ].
      destruct (Hnk Message eq_refl).
Qed.

(** C5, as the code has it: when the bucket name is unset or empty, or
    the client object is missing, a request that names a file is answered
    with status 500 and the misconfiguration message, and no call to the
    store has gone out.  Whether the store can be reached is not part of
    this check. *)
Theorem misconfiguration_is_reported_before_any_call (file_key : string) :
  file_key <> "" ->
  S3_BUCKET_NAME = None \/ S3_BUCKET_NAME = Some "" \/ s3_client = None ->
  serve (Some file_key)
  = (mkResponse (error_dict "Server is not configured for S3 access.") 500,
     []).
Proof.
  intros Hkey Hcfg.
  unfold ResultsUI.serve, get_benchmark_data.
  rewrite (not_str_some _ Hkey).
  destruct Hcfg as [-> | [-> | ->]]; cbn; try reflexivity.
  destruct (not_str S3_BUCKET_NAME); reflexivity.
Qed.



End Route.

(** *** The theorems at the objects of [Fixtures] *)

Import Fixtures.

Lemma lm_eval_document_is_relayed_if_it_serialises_witness :
  relay store "lm-eval.json"
  = mkResponse
      (PyDict [(PyStr "fileType", PyStr "lm-eval");
               (PyStr "data", lm_eval_doc);
               (PyStr "fileName", PyStr "lm-eval.json")])
      200.
Proof.
  refine (lm_eval_document_is_relayed_if_it_serialises
            (Some bucket) (Some store) json_loads yaml_safe_load dumps_raises
            "lm-eval.json" lm_eval_text lm_eval_doc _ _ _).
  - fixture_retrieves lm_eval_text.
  - reflexivity.
  - fixture_shape.
Defined.

Lemma benchmark_document_is_relayed_if_it_serialises_witness :
  relay store "guidellm.json"
  = mkResponse
      (PyDict [(PyStr "fileType", PyStr "benchmark");
               (PyStr "data", benchmark_doc);
               (PyStr "fileName", PyStr "guidellm.json")])
      200.
Proof.
  refine (benchmark_document_is_relayed_if_it_serialises
            (Some bucket) (Some store) json_loads yaml_safe_load dumps_raises
            "guidellm.json" benchmark_json_text benchmark_doc _ _ _ _).
  - fixture_retrieves benchmark_json_text.
  - right. exists benchmark_doc. split; [ reflexivity | fixture_no_pair ].
  - reflexivity.
  - fixture_shape.
Defined.


Lemma retrieval_failures_are_told_apart_witness :
  relay store "nowhere.json"
  = mkResponse (error_dict "File not found in S3 bucket: nowhere.json") 404
  /\
  relay store_without_credentials "lm-eval.json"
  = mkResponse (error_dict "Server S3 credentials are invalid or missing.") 500
  /\
  relay store_access_denied "lm-eval.json"
  = mkResponse (error_dict "S3 Error: Access Denied") 500
  /\
  relay store_unreachable "lm-eval.json"
  = mkResponse
      (error_dict
         ("An unexpected error occurred: Could not connect to the endpoint URL: "
          ++ dq ++ "http://minio:9000/benchmark-results/lm-eval.json" ++ dq))
      500.
Proof.
  split; [ | split; [ | split ] ].
  - refine (proj1 (retrieval_failures_are_told_apart
                     (Some bucket) (Some store) json_loads yaml_safe_load
                     dumps_raises "nowhere.json"
                     (ClientError "NoSuchKey" "The specified key does not exist.")
                     _) _ eq_refl).
    fixture_raises store.
  - refine (proj1 (proj2 (retrieval_failures_are_told_apart
                     (Some bucket) (Some store_without_credentials)
                     json_loads yaml_safe_load dumps_raises "lm-eval.json"
                     (NoCredentialsError "Unable to locate credentials")
                     _)) _ eq_refl).
    fixture_raises store_without_credentials.
  - refine (proj2 (proj2 (retrieval_failures_are_told_apart
                     (Some bucket) (Some store_access_denied)
                     json_loads yaml_safe_load dumps_raises "lm-eval.json"
                     (ClientError "AccessDenied" "Access Denied")
                     _)) _ _).
    + fixture_raises store_access_denied.
    + discriminate.
    + discriminate.
  - refine (proj2 (proj2 (retrieval_failures_are_told_apart
                     (Some bucket) (Some store_unreachable)
                     json_loads yaml_safe_load dumps_raises "lm-eval.json"
                     (OtherException
                        ("Could not connect to the endpoint URL: " ++ dq
                         ++ "http://minio:9000/benchmark-results/lm-eval.json"
                         ++ dq))
                     _)) _ _).
    + fixture_raises store_unreachable.
    + discriminate.
    + discriminate.
Defined.

Lemma misconfiguration_is_reported_before_any_call_witness :
  serve None (Some store) json_loads yaml_safe_load dumps_raises
        (Some "lm-eval.json")
  = (mkResponse (error_dict "Server is not configured for S3 access.") 500,
     []).
Proof.
  apply (misconfiguration_is_reported_before_any_call
           None (Some store) json_loads yaml_safe_load dumps_raises
           "lm-eval.json").
  - discriminate.
  - left. reflexivity.
Defined.



(** *** Where the claims as first worded fail *)

(** C1 as first worded fails on a document that parses and does not
    serialise: an lm-eval document whose results are nested 980 deep is
    answered with status 500, not with the envelope. *)
Lemma deep_lm_eval_document_is_not_relayed :
  retrieves (Some bucket) (Some SerialiserFixtures.store)
            "deep-lm-eval.json" SerialiserFixtures.deep_lm_eval_text /\
  SerialiserFixtures.json_loads SerialiserFixtures.deep_lm_eval_text
  = inr SerialiserFixtures.deep_lm_eval_doc /\
  lm_eval_shape SerialiserFixtures.deep_lm_eval_doc /\
  SerialiserFixtures.relay "deep-lm-eval.json"
  = mkResponse
      (error_dict
         "Error during JSON processing: maximum recursion depth exceeded while encoding a JSON object")
      500 /\
  SerialiserFixtures.relay "deep-lm-eval.json"
  <> mkResponse
       (envelope "lm-eval" SerialiserFixtures.deep_lm_eval_doc
                 "deep-lm-eval.json")
       200.
Proof.
  assert (E : SerialiserFixtures.relay "deep-lm-eval.json"
              = mkResponse
                  (error_dict
                     "Error during JSON processing: maximum recursion depth exceeded while encoding a JSON object")
                  500) by (vm_compute; reflexivity).
  split.
  { split; [ discriminate | ].
    exists bucket, SerialiserFixtures.store,
      (mkObject (inr SerialiserFixtures.deep_lm_eval_text)).
    repeat split; try reflexivity; discriminate. }
  split; [ vm_compute; reflexivity | ].
  split; [ split; eexists _, _; (split; [ reflexivity | simpl; tauto ]) | ].
  split; [ exact E | ].
  rewrite E. discriminate.
Qed.

(** C2 as first worded fails on a mapping with [benchmarks] in which
    YAML has built [bytes]: it is answered with status 500, not with the
    envelope. *)
Lemma binary_benchmark_document_is_not_relayed :
  retrieves (Some bucket) (Some SerialiserFixtures.store)
            "binary.yaml" SerialiserFixtures.binary_benchmark_text /\
  not_lm_eval_json SerialiserFixtures.json_loads
                   SerialiserFixtures.binary_benchmark_text /\
  SerialiserFixtures.yaml_safe_load SerialiserFixtures.binary_benchmark_text
  = inr SerialiserFixtures.binary_benchmark_doc /\
  benchmark_shape SerialiserFixtures.binary_benchmark_doc /\
  SerialiserFixtures.relay "binary.yaml"
  = mkResponse
      (error_dict
         "Error during YAML processing: Object of type bytes is not JSON serializable")
      500 /\
  SerialiserFixtures.relay "binary.yaml"
  <> mkResponse
       (envelope "benchmark" SerialiserFixtures.binary_benchmark_doc
                 "binary.yaml")
       200.
Proof.
  assert (E : SerialiserFixtures.relay "binary.yaml"
              = mkResponse
                  (error_dict
                     "Error during YAML processing: Object of type bytes is not JSON serializable")
                  500) by (vm_compute; reflexivity).
  split.
  { split; [ discriminate | ].
    exists bucket, SerialiserFixtures.store,
      (mkObject (inr SerialiserFixtures.binary_benchmark_text)).
    repeat split; try reflexivity; discriminate. }
  split; [ left; eexists; vm_compute; reflexivity | ].
  split; [ vm_compute; reflexivity | ].
  split; [ eexists _, _; (split; [ reflexivity | simpl; tauto ]) | ].
  split; [ exact E | ].
  rewrite E. discriminate.
Qed.

(** C4 as first worded fails for credentials that the store rejects:
    the failure arrives as a [ClientError], and the answer is "S3 Error: "
    followed by whatever message the store sent, not the message about
    the credentials. *)
Lemma rejected_credentials_get_the_generic_message :
  retrieval_raises (Some bucket) (Some store_bad_signature) "lm-eval.json"
                   (ClientError "SignatureDoesNotMatch" "") /\
  relay store_bad_signature "lm-eval.json"
  = mkResponse (error_dict "S3 Error: ") 500 /\
  relay store_unknown_access_key "lm-eval.json"
  = mkResponse
      (error_dict
         "S3 Error: The AWS Access Key Id you provided does not exist in our records.")
      500 /\
  relay store_bad_signature "lm-eval.json"
  <> mkResponse
       (error_dict "Server S3 credentials are invalid or missing.") 500 /\
  relay store_unknown_access_key "lm-eval.json"
  <> mkResponse
       (error_dict "Server S3 credentials are invalid or missing.") 500.
Proof.
  split; [ fixture_raises store_bad_signature | ].
  split; [ reflexivity | ]. split; [ reflexivity | ].
  split; discriminate.
Qed.

(** C5 as first worded fails for a store that cannot be reached: with
    the bucket name set the check passes, the call goes out, and the
    answer is the generic one for a failure of the transport. *)
Lemma unreachable_store_is_found_by_the_call :
  serve (Some bucket) (Some store_unreachable) json_loads yaml_safe_load
        dumps_raises (Some "lm-eval.json")
  = (mkResponse
       (error_dict
          ("An unexpected error occurred: Could not connect to the endpoint URL: "
           ++ dq ++ "http://minio:9000/benchmark-results/lm-eval.json" ++ dq))
       500,
     [GetObject bucket "lm-eval.json"]) /\
  serve (Some bucket) (Some store_unreachable) json_loads yaml_safe_load
        dumps_raises (Some "lm-eval.json")
  <> (mkResponse (error_dict "Server is not configured for S3 access.") 500,
      []).
Proof. split; [ reflexivity | discriminate ]. Qed.

End ResultsUISpec.

(* ===================================================================== *)
(** ** The relay: every request *)
(* ===================================================================== *)

Module ResultsUIExtra.
Import PyStr ResultsUI ResultsUIStart ResultsUISpec.

Section Route.

Variable S3_BUCKET_NAME : option string.
Variable s3_client : option S3Client.
Variable json_loads : string -> result pyvalue.
Variable yaml_safe_load : string -> result pyvalue.
Variable dumps_raises : pyvalue -> option string.

Abbreviation response_of :=
  (response_of S3_BUCKET_NAME s3_client json_loads yaml_safe_load
               dumps_raises).
Abbreviation serve :=
  (serve S3_BUCKET_NAME s3_client json_loads yaml_safe_load dumps_raises).
Abbreviation calls_of :=
  (calls_of S3_BUCKET_NAME s3_client json_loads yaml_safe_load dumps_raises).
Abbreviation retrieves := (retrieves S3_BUCKET_NAME s3_client).
Abbreviation retrieval_raises := (retrieval_raises S3_BUCKET_NAME s3_client).
Abbreviation json_attempt :=
  (json_attempt json_loads yaml_safe_load dumps_raises).
Abbreviation yaml_attempt := (yaml_attempt yaml_safe_load dumps_raises).

(** The three ways a request can go: it is turned away before the store
    is asked, the retrieval raises, or the text arrives. *)
Lemma request_cases (file_key : option string) :
  (calls_of file_key = [] /\
   (file_key = None \/ file_key = Some "" \/
    S3_BUCKET_NAME = None \/ S3_BUCKET_NAME = Some "" \/ s3_client = None))
  \/
  (exists key Bucket,
     file_key = Some key /\ S3_BUCKET_NAME = Some Bucket /\
     calls_of file_key = [GetObject Bucket key] /\
     ((exists e, retrieval_raises key e) \/
      (exists file_content, retrieves key file_content))).
Proof.
  destruct file_key as [key | ]; [ | left; split; [ reflexivity | tauto ] ].
  destruct (String.eqb_spec key "") as [-> | Hkey];
    [ left; split; [ reflexivity | tauto ] | ].
  unfold ResultsUI.calls_of, ResultsUI.serve, get_benchmark_data.
  rewrite (not_str_some _ Hkey).
  destruct S3_BUCKET_NAME as [Bucket | ];
    [ | left; split; [ reflexivity | tauto ] ].
  destruct (String.eqb_spec Bucket "") as [-> | HBne];
    [ left; split; [ reflexivity | tauto ] | ].
  rewrite (not_str_some _ HBne).
  destruct s3_client as [client | ];
    [ | left; split; [ reflexivity | tauto ] ].
  right. exists key, Bucket. repeat (split; [ reflexivity | ]).
  destruct (client_get_object client Bucket key) as [e | o] eqn:Hget.
  - left. exists e. split; [ exact Hkey | ].
    exists Bucket, client. eauto 10.
  - destruct (Body_read_decode o) as [e | file_content] eqn:Hbody.
    + left. exists e. split; [ exact Hkey | ].
      exists Bucket, client. eauto 10.
    + right. exists file_content. split; [ exact Hkey | ].
      exists Bucket, client, o. eauto 10.
Qed.

(** What a request that is turned away is told. *)
Lemma response_turned_away (file_key : option string) :
  file_key = None \/ file_key = Some "" \/
  S3_BUCKET_NAME = None \/ S3_BUCKET_NAME = Some "" \/ s3_client = None ->
  response_of file_key
  = mkResponse (error_dict "No 'file' parameter specified in URL.") 400
  \/
  response_of file_key
  = mkResponse (error_dict "Server is not configured for S3 access.") 500.
Proof.
  unfold ResultsUI.response_of, ResultsUI.serve, get_benchmark_data.
  intros H. destruct (not_str file_key) eqn:Hk; [ left; reflexivity | right ].
  destruct H as [-> | [-> | H]]; try discriminate.
  destruct (not_str S3_BUCKET_NAME) eqn:HB; [ reflexivity | ].
  destruct H as [-> | [-> | ->]]; try discriminate. reflexivity.
Qed.

(** What a request whose retrieval raises is told. *)
Lemma response_raised (file_key : string) (e : exn) :
  retrieval_raises file_key e ->
  response_of (Some file_key)
  = match e with
    | NoCredentialsError _ =>
        mkResponse
          (error_dict "Server S3 credentials are invalid or missing.") 500
    | ClientError Code Message =>
        if String.eqb Code "NoSuchKey"
        then mkResponse
               (error_dict ("File not found in S3 bucket: " ++ file_key)) 404
        else mkResponse (error_dict ("S3 Error: " ++ Message)) 500
    | _ =>
        mkResponse
          (error_dict ("An unexpected error occurred: " ++ str e)) 500
    end.
Proof.
  intros (Hkey & Bucket & client & HB & HBne & Hc & Hraise).
  unfold ResultsUI.response_of, ResultsUI.serve, get_benchmark_data, fetch,
    get_object.
  rewrite (not_str_some _ Hkey), HB, (not_str_some _ HBne), Hc. cbn.
  destruct Hraise as [Hget | (o & Hget & Hbody)]; rewrite Hget; cbn;
    [ | rewrite Hbody ];
    destruct e as [ | Code Message | | | ]; cbn; try reflexivity;
    destruct (String.eqb Code "NoSuchKey"); reflexivity.
Qed.

(** The ends of the YAML attempt. *)
Lemma yaml_attempt_cases (file_key file_content : string) :
  (exists data,
     yaml_safe_load file_content = inr data /\ benchmark_shape data /\
     dumps_raises (envelope "benchmark" data file_key) = None /\
     yaml_attempt file_key file_content
     = mkResponse (envelope "benchmark" data file_key) 200)
  \/
  (exists data,
     yaml_safe_load file_content = inr data /\ ~ benchmark_shape data /\
     yaml_attempt file_key file_content
     = mkResponse (error_dict unknown_structure_message) 400)
  \/
  (exists msg,
     yaml_safe_load file_content = inl (YAMLError msg) /\
     yaml_attempt file_key file_content
     = mkResponse (error_dict ("Error parsing YAML file: " ++ msg)) 500)
  \/
  (exists msg,
     yaml_attempt file_key file_content
     = mkResponse (error_dict ("Error during YAML processing: " ++ msg)) 500).
Proof.
  destruct (yaml_safe_load file_content) as [e | data] eqn:Hy.
  - unfold ResultsUI.yaml_attempt, yaml_try. rewrite Hy.
    destruct e as [ m | c m | m | m | m ];
      try (right; right; right; eexists; reflexivity).
    right; right; left. exists m. split; reflexivity.
  - destruct (is_dict data && py_in "benchmarks" data) eqn:Ht.
    + apply py_in_mapping_with_key in Ht.
      rewrite (yaml_attempt_benchmark _ _ _ _ _ Hy Ht).
      destruct (dumps_raises (envelope "benchmark" data file_key)) eqn:Hd.
      * right; right; right. eexists. reflexivity.
      * left. exists data. auto.
    + right; left. exists data. split; [ reflexivity | ].
      split; [ intros Hs; apply py_in_mapping_with_key in Hs; congruence | ].
      unfold ResultsUI.yaml_attempt, yaml_try. rewrite Hy, Ht. reflexivity.
Qed.

(** The ends of the two parse attempts. *)
Lemma json_attempt_cases (file_key file_content : string) :
  (exists data,
     json_loads file_content = inr data /\ lm_eval_shape data /\
     dumps_raises (envelope "lm-eval" data file_key) = None /\
     json_attempt file_key file_content
     = mkResponse (envelope "lm-eval" data file_key) 200)
  \/
  (exists msg,
     json_attempt file_key file_content
     = mkResponse (error_dict ("Error during JSON processing: " ++ msg)) 500)
  \/
  (not_lm_eval_json json_loads file_content /\
   json_attempt file_key file_content = yaml_attempt file_key file_content).
Proof.
  destruct (json_loads file_content) as [e | data] eqn:Hj.
  - destruct e as [ m | c m | m | m | m ];
      try (right; left; eexists;
           unfold ResultsUI.json_attempt, json_try; rewrite Hj; reflexivity).
    right; right. assert (Hn : not_lm_eval_json json_loads file_content)
      by (left; eauto).
    split; [ exact Hn | apply json_attempt_falls_through, Hn ].
  - destruct (is_dict data && py_in "results" data && py_in "config" data)
      eqn:Ht.
    + apply lm_eval_test_iff in Ht.
      rewrite (json_attempt_lm_eval _ _ _ _ _ _ Hj Ht).
      destruct (dumps_raises (envelope "lm-eval" data file_key)) eqn:Hd.
      * right; left. eexists. reflexivity.
      * left. exists data. auto.
    + right; right.
      assert (Hn : not_lm_eval_json json_loads file_content).
      { right. exists data. split; [ exact Hj | ].
        intros Hs. apply lm_eval_test_iff in Hs. congruence. }
      split; [ exact Hn | apply json_attempt_falls_through, Hn ].
Qed.

(** X1: whatever the request, the configuration, the store, the
    parsers and the serialiser, the answer is either status 200 with the
    body [{"fileType": t, "data": data, "fileName": key}], where [t] is
    "lm-eval" or "benchmark", [key] is the requested key and the body is
    one that serialises, or one of the statuses 400, 404, 500 with a body
    [{"error": msg}] whose message is not empty. *)
Theorem every_answer_is_an_envelope_or_an_error (file_key : option string) :
  (status (response_of file_key) = 200 /\
   dumps_raises (body (response_of file_key)) = None /\
   exists t data key,
     file_key = Some key /\ (t = "lm-eval" \/ t = "benchmark") /\
     body (response_of file_key)
     = PyDict [(PyStr "fileType", PyStr t);
               (PyStr "data", data);
               (PyStr "fileName", PyStr key)])
  \/
  ((status (response_of file_key) = 400 \/
    status (response_of file_key) = 404 \/
    status (response_of file_key) = 500) /\
   exists msg,
     msg <> "" /\
     body (response_of file_key) = PyDict [(PyStr "error", PyStr msg)]).
Proof.
  destruct (request_cases file_key)
    as [(_ & Haway) | (key & Bucket & -> & _ & _ & [(e & He) | (c & Hc)])].
  - right. destruct (response_turned_away _ Haway) as [-> | ->]; cbn;
      (split; [ tauto | eexists; split; [ | reflexivity ]; discriminate ]).
  - right. rewrite (response_raised _ _ He).
    destruct e as [ m | Code m | m | m | m ];
      try destruct (String.eqb Code "NoSuchKey"); cbn;
      (split; [ tauto | eexists; split; [ | reflexivity ]; discriminate ]).
  - rewrite (response_retrieved _ _ _ _ _ _ _ Hc).
    destruct (json_attempt_cases key c)
      as [(d & _ & _ & Hd & ->) | [(m & ->) | (_ & ->)]];
      [ | | destruct (yaml_attempt_cases key c)
              as [(d & _ & _ & Hd & ->) | [(d & _ & _ & ->) |
                  [(m & _ & ->) | (m & ->)]]] ]; cbn [status body].
    + left. split; [ reflexivity | ]. split; [ exact Hd | ].
      exists "lm-eval", d, key. auto.
    + right. split; [ tauto | eexists; split; [ | reflexivity ]; discriminate ].
    + left. split; [ reflexivity | ]. split; [ exact Hd | ].
      exists "benchmark", d, key. auto.
    + right. split; [ tauto | eexists; split; [ | reflexivity ]; discriminate ].
    + right. split; [ tauto | eexists; split; [ | reflexivity ]; discriminate ].
    + right. split; [ tauto | eexists; split; [ | reflexivity ]; discriminate ].
Qed.

(** X2: status 200 is given only for a text that was retrieved and
    classified: either [json.loads] made of it a mapping with [results]
    and [config], which is the data of an "lm-eval" envelope, or it is
    not lm-eval JSON and [yaml.safe_load] made of it a mapping with
    [benchmarks], which is the data of a "benchmark" envelope. *)
Theorem ok_only_for_a_classified_document (file_key : option string) :
  status (response_of file_key) = 200 ->
  exists key file_content data,
    file_key = Some key /\ retrieves key file_content /\
    ((json_loads file_content = inr data /\ lm_eval_shape data /\
      body (response_of file_key) = envelope "lm-eval" data key)
     \/
     (not_lm_eval_json json_loads file_content /\
      yaml_safe_load file_content = inr data /\ benchmark_shape data /\
      body (response_of file_key) = envelope "benchmark" data key)).
Proof.
  destruct (request_cases file_key)
    as [(_ & Haway) | (key & Bucket & -> & _ & _ & [(e & He) | (c & Hc)])].
  - destruct (response_turned_away _ Haway) as [-> | ->]; discriminate.
  - rewrite (response_raised _ _ He).
    destruct e as [ m | Code m | m | m | m ];
      try destruct (String.eqb Code "NoSuchKey"); discriminate.
  - rewrite (response_retrieved _ _ _ _ _ _ _ Hc).
    destruct (json_attempt_cases key c)
      as [(d & Hj & Hs & _ & ->) | [(m & ->) | (Hn & ->)]];
      [ | | destruct (yaml_attempt_cases key c)
              as [(d & Hy & Hs & _ & ->) | [(d & _ & _ & ->) |
                  [(m & _ & ->) | (m & ->)]]] ];
      try discriminate; intros _; exists key, c, d.
    + split; [ reflexivity | ]. split; [ exact Hc | ]. left. auto.
    + split; [ reflexivity | ]. split; [ exact Hc | ]. right. auto.
Qed.

(** X3: a request asks the store at most once, and then for the
    requested key in the configured bucket and for nothing else. *)
Theorem at_most_one_call_for_the_requested_key (file_key : option string) :
  calls_of file_key = [] \/
  exists key Bucket,
    file_key = Some key /\ S3_BUCKET_NAME = Some Bucket /\
    calls_of file_key = [GetObject Bucket key].
Proof.
  destruct (request_cases file_key)
    as [(H & _) | (key & Bucket & Hk & HB & Hcalls & _)].
  - left. exact H.
  - right. exists key, Bucket. auto.
Qed.

(** X4: when [json.loads] raises something that is not a
    [JSONDecodeError], the request ends with status 500 and the message
    "Error during JSON processing: " followed by the exception's text;
    the YAML parser is not asked. *)
Theorem other_json_failure_is_a_server_error
        (file_key file_content : string) (e : exn) :
  retrieves file_key file_content ->
  json_loads file_content = inl e ->
  (forall msg, e <> JSONDecodeError msg) ->
  response_of (Some file_key)
  = mkResponse (error_dict ("Error during JSON processing: " ++ str e)) 500.
Proof.
  intros Hr Hj He. rewrite (response_retrieved _ _ _ _ _ _ _ Hr).
  unfold ResultsUI.json_attempt, json_try. rewrite Hj.
  destruct e as [ m | Code m | m | m | m ]; try reflexivity.
  destruct (He m eq_refl).
Qed.

(** X5: when the text is not lm-eval JSON and [yaml.safe_load] raises
    something that is not a [YAMLError], the request ends with status 500
    and the message "Error during YAML processing: " followed by the
    exception's text. *)
Theorem other_yaml_failure_is_a_server_error
        (file_key file_content : string) (e : exn) :
  retrieves file_key file_content ->
  not_lm_eval_json json_loads file_content ->
  yaml_safe_load file_content = inl e ->
  (forall msg, e <> YAMLError msg) ->
  response_of (Some file_key)
  = mkResponse (error_dict ("Error during YAML processing: " ++ str e)) 500.
Proof.
  intros Hr Hn Hy He.
  rewrite (response_retrieved _ _ _ _ _ _ _ Hr).
  rewrite (json_attempt_falls_through _ _ _ _ _ Hn).
  unfold ResultsUI.yaml_attempt, yaml_try. rewrite Hy.
  destruct e as [ m | Code m | m | m | m ]; try reflexivity.
  destruct (He m eq_refl).
Qed.

(** X6: status 404 is given only when the store reported [NoSuchKey] for
    the requested key, and the message names that key. *)
Theorem not_found_only_for_a_missing_object (file_key : option string) :
  status (response_of file_key) = 404 ->
  exists key Message,
    file_key = Some key /\
    retrieval_raises key (ClientError "NoSuchKey" Message) /\
    body (response_of file_key)
    = error_dict ("File not found in S3 bucket: " ++ key).
Proof.
  destruct (request_cases file_key)
    as [(_ & Haway) | (key & Bucket & -> & _ & _ & [(e & He) | (c & Hc)])].
  - destruct (response_turned_away _ Haway) as [-> | ->]; discriminate.
  - rewrite (response_raised _ _ He).
    destruct e as [ m | Code m | m | m | m ]; try discriminate.
    destruct (String.eqb_spec Code "NoSuchKey") as [-> | _];
      [ | discriminate ].
    intros _. exists key, m. auto.
  - rewrite (response_retrieved _ _ _ _ _ _ _ Hc).
    destruct (json_attempt_cases key c)
      as [(d & _ & _ & _ & ->) | [(m & ->) | (_ & ->)]];
      [ | | destruct (yaml_attempt_cases key c)
              as [(d & _ & _ & _ & ->) | [(d & _ & _ & ->) |
                  [(m & _ & ->) | (m & ->)]]] ]; discriminate.
Qed.

(** X7: status 400 has two causes only: the request names no file, or
    the text was retrieved and parsed by [yaml.safe_load] and has neither
    shape.  No failure of the store or of a parser is blamed on the
    client. *)
Theorem bad_request_only_for_no_file_or_unknown_structure
        (file_key : option string) :
  status (response_of file_key) = 400 ->
  ((file_key = None \/ file_key = Some "") /\
   calls_of file_key = [])
  \/
  (exists key file_content data,
     file_key = Some key /\ retrieves key file_content /\
     not_lm_eval_json json_loads file_content /\
     yaml_safe_load file_content = inr data /\ ~ benchmark_shape data /\
     body (response_of file_key) = error_dict unknown_structure_message).
Proof.
  destruct (request_cases file_key)
    as [(Hcalls & Haway) |
        (key & Bucket & -> & _ & _ & [(e & He) | (c & Hc)])].
  - intros H. left. split; [ | exact Hcalls ].
    destruct file_key as [key | ]; [ | tauto ].
    destruct (String.eqb_spec key "") as [-> | Hkey]; [ tauto | ].
    exfalso. revert H.
    unfold ResultsUI.response_of, ResultsUI.serve, get_benchmark_data.
    rewrite (not_str_some _ Hkey).
    destruct (not_str S3_BUCKET_NAME || not_obj s3_client) eqn:Ht;
      [ discriminate | ].
    apply orb_false_elim in Ht. destruct Ht as [HB Hc].
    destruct Haway as [[=] | [[= ->] | [-> | [-> | ->]]]];
      try discriminate; congruence.
  - rewrite (response_raised _ _ He).
    destruct e as [ m | Code m | m | m | m ];
      try destruct (String.eqb Code "NoSuchKey"); discriminate.
  - rewrite (response_retrieved _ _ _ _ _ _ _ Hc).
    destruct (json_attempt_cases key c)
      as [(d & _ & _ & _ & ->) | [(m & ->) | (Hn & ->)]];
      [ | | destruct (yaml_attempt_cases key c)
              as [(d & _ & _ & _ & ->) | [(d & Hy & Hs & ->) |
                  [(m & _ & ->) | (m & ->)]]] ];
      try discriminate.
    intros _. right. exists key, c, d. auto 10.
Qed.

(** X8: when the check at start-up prints nothing, a request that names
    a file is never turned away as unconfigured: it goes to the store,
    for the configured bucket. *)
Theorem quiet_startup_lets_requests_through
        (S3_ACCESS_KEY S3_SECRET_KEY : option string) (client : S3Client)
        (file_key : string) :
  startup_check S3_BUCKET_NAME S3_ACCESS_KEY S3_SECRET_KEY = [] ->
  s3_client = Some client ->
  file_key <> "" ->
  exists Bucket,
    S3_BUCKET_NAME = Some Bucket /\
    calls_of (Some file_key) = [GetObject Bucket file_key].
Proof.
  unfold startup_check. intros Hquiet Hc Hkey.
  destruct (forallb truthy [S3_BUCKET_NAME; S3_ACCESS_KEY; S3_SECRET_KEY])
    eqn:Hall; [ | discriminate ].
  cbn [forallb] in Hall. apply andb_true_iff in Hall. destruct Hall as [HB _].
  apply negb_true_iff, not_str_false in HB. destruct HB as (Bucket & HB & HBne).
  exists Bucket. split; [ exact HB | ].
  unfold ResultsUI.calls_of, ResultsUI.serve, get_benchmark_data, fetch,
    get_object.
  rewrite (not_str_some _ Hkey), HB, (not_str_some _ HBne), Hc. cbn.
  destruct (client_get_object client Bucket file_key); reflexivity.
Qed.

End Route.

(** *** The theorems at the objects of the fixtures *)

Lemma missing_file_parameter_is_rejected_witness :
  serve None None Fixtures.json_loads Fixtures.yaml_safe_load
      Fixtures.dumps_raises (Some "")
  = (mkResponse (error_dict "No 'file' parameter specified in URL.") 400, []).
Proof.
  apply (missing_file_parameter_is_rejected
           None None Fixtures.json_loads Fixtures.yaml_safe_load
               Fixtures.dumps_raises (Some "")).
  right. reflexivity.
Defined.

Lemma ok_only_for_a_classified_document_witness :
  exists key file_content data,
    Some "all-keys.json" = Some key /\
    retrieves (Some Fixtures.bucket) (Some EdgeFixtures.store)
              key file_content /\
    ((EdgeFixtures.json_loads file_content = inr data /\
      lm_eval_shape data /\
      body (EdgeFixtures.relay (Some "all-keys.json"))
      = envelope "lm-eval" data key)
     \/
     (not_lm_eval_json EdgeFixtures.json_loads file_content /\
      EdgeFixtures.yaml_safe_load file_content = inr data /\
      benchmark_shape data /\
      body (EdgeFixtures.relay (Some "all-keys.json"))
      = envelope "benchmark" data key)).
Proof.
  apply (ok_only_for_a_classified_document
           (Some Fixtures.bucket) (Some EdgeFixtures.store)
           EdgeFixtures.json_loads EdgeFixtures.yaml_safe_load
           Fixtures.dumps_raises
           (Some "all-keys.json")).
  reflexivity.
Defined.

Lemma other_json_failure_is_a_server_error_witness :
  EdgeFixtures.relay (Some "deep.json")
  = mkResponse
      (error_dict
         "Error during JSON processing: maximum recursion depth exceeded while decoding a JSON array from a unicode string")
      500.
Proof.
  apply (other_json_failure_is_a_server_error
           (Some Fixtures.bucket) (Some EdgeFixtures.store)
           EdgeFixtures.json_loads EdgeFixtures.yaml_safe_load
           Fixtures.dumps_raises
           "deep.json" EdgeFixtures.deep_text
           (OtherException
              "maximum recursion depth exceeded while decoding a JSON array from a unicode string")).
  - split; [ discriminate | ].
    exists Fixtures.bucket, EdgeFixtures.store,
      (mkObject (inr EdgeFixtures.deep_text)).
    repeat split; try reflexivity; discriminate.
  - vm_compute. reflexivity.
  - discriminate.
Defined.

Lemma other_yaml_failure_is_a_server_error_witness :
  EdgeFixtures.relay (Some "bad-date.yaml")
  = mkResponse
      (error_dict "Error during YAML processing: month must be in 1..12") 500.
Proof.
  apply (other_yaml_failure_is_a_server_error
           (Some Fixtures.bucket) (Some EdgeFixtures.store)
           EdgeFixtures.json_loads EdgeFixtures.yaml_safe_load
           Fixtures.dumps_raises
           "bad-date.yaml" EdgeFixtures.bad_date_text
           (OtherException "month must be in 1..12")).
  - split; [ discriminate | ].
    exists Fixtures.bucket, EdgeFixtures.store,
      (mkObject (inr EdgeFixtures.bad_date_text)).
    repeat split; try reflexivity; discriminate.
  - left. eexists. vm_compute. reflexivity.
  - vm_compute. reflexivity.
  - discriminate.
Defined.

Lemma not_found_only_for_a_missing_object_witness :
  exists key Message,
    Some "nowhere.json" = Some key /\
    retrieval_raises (Some Fixtures.bucket) (Some Fixtures.store) key
                     (ClientError "NoSuchKey" Message) /\
    body (Fixtures.relay Fixtures.store "nowhere.json")
    = error_dict ("File not found in S3 bucket: " ++ key).
Proof.
  apply (not_found_only_for_a_missing_object
           (Some Fixtures.bucket) (Some Fixtures.store)
           Fixtures.json_loads Fixtures.yaml_safe_load
            Fixtures.dumps_raises (Some "nowhere.json")).
  reflexivity.
Defined.

Lemma bad_request_only_for_no_file_or_unknown_structure_witness :
  ((Some "foo.json" = None \/ Some "foo.json" = Some "") /\
   calls_of (Some Fixtures.bucket) (Some Fixtures.store)
            Fixtures.json_loads Fixtures.yaml_safe_load
             Fixtures.dumps_raises (Some "foo.json")
   = [])
  \/
  (exists key file_content data,
     Some "foo.json" = Some key /\
     retrieves (Some Fixtures.bucket) (Some Fixtures.store)
               key file_content /\
     not_lm_eval_json Fixtures.json_loads file_content /\
     Fixtures.yaml_safe_load file_content = inr data /\
     ~ benchmark_shape data /\
     body (Fixtures.relay Fixtures.store "foo.json")
     = error_dict unknown_structure_message).
Proof.
  apply (bad_request_only_for_no_file_or_unknown_structure
           (Some Fixtures.bucket) (Some Fixtures.store)
           Fixtures.json_loads Fixtures.yaml_safe_load
            Fixtures.dumps_raises (Some "foo.json")).
  reflexivity.
Defined.

Lemma quiet_startup_lets_requests_through_witness :
  exists Bucket,
    Some Fixtures.bucket = Some Bucket /\
    calls_of (Some Fixtures.bucket) (Some Fixtures.store_unreachable)
             Fixtures.json_loads Fixtures.yaml_safe_load
              Fixtures.dumps_raises
             (Some "lm-eval.json")
    = [GetObject Bucket "lm-eval.json"].
Proof.
  apply (quiet_startup_lets_requests_through
           (Some Fixtures.bucket) (Some Fixtures.store_unreachable)
           Fixtures.json_loads Fixtures.yaml_safe_load
            Fixtures.dumps_raises
           (Some "minio") (Some "minio123") Fixtures.store_unreachable
           "lm-eval.json").
  - reflexivity.
  - reflexivity.
  - discriminate.
Defined.

End ResultsUIExtra.

(* ===================================================================== *)
(** ** The corpus: classes, lines and what can be read back *)
(* ===================================================================== *)

Module PromptGenExtra.
Import PyStr PyStrFacts PromptGen PromptGenSpec Corpus.

(** *** Escapes *)

Lemma json_unescape_escape_char (c : ascii) (rest : string) :
  json_unescape (json_escape_char c ++ rest)
  = option_map (String c) (json_unescape rest).
Proof. destruct c as [[] [] [] [] [] [] [] []]; reflexivity. Qed.

Lemma json_unescape_escape (s : string) :
  json_unescape (json_escape s) = Some s.
Proof.
  induction s as [ | c s IH]; [ reflexivity | ].
  cbn [json_escape]. rewrite json_unescape_escape_char, IH. reflexivity.
Qed.

Lemma json_escape_injective (s t : string) :
  json_escape s = json_escape t -> s = t.
Proof.
  intros H. apply (f_equal json_unescape) in H.
  rewrite !json_unescape_escape in H. congruence.
Qed.

Lemma json_dumps_injective (r1 r2 : record) :
  json_dumps r1 = json_dumps r2 -> prompt r1 = prompt r2.
Proof.
  unfold json_dumps, json_dumps_str. intros H.
  rewrite <- !append_assoc in H.
  apply append_inv_tail in H. apply append_inv_tail in H.
  apply append_inv_head in H. apply json_escape_injective, H.
Qed.

Lemma all_chars_append (P : ascii -> bool) (s t : string) :
  all_chars P (s ++ t) = all_chars P s && all_chars P t.
Proof.
  induction s as [ | c s IH]; [ reflexivity | ].
  cbn [append all_chars]. rewrite IH, andb_assoc. reflexivity.
Qed.

Lemma all_chars_weaken (P Q : ascii -> bool) (s : string) :
  (forall c, P c = true -> Q c = true) ->
  all_chars P s = true -> all_chars Q s = true.
Proof.
  intros HPQ. induction s as [ | c s IH]; [ reflexivity | ].
  cbn [all_chars]. rewrite !andb_true_iff. intros [Hc Hs]. auto.
Qed.

Lemma json_escape_char_printable (c : ascii) :
  all_chars is_printable (json_escape_char c) = true.
Proof. destruct c as [[] [] [] [] [] [] [] []]; reflexivity. Qed.

Lemma json_escape_printable (s : string) :
  all_chars is_printable (json_escape s) = true.
Proof.
  induction s as [ | c s IH]; [ reflexivity | ].
  cbn [json_escape]. rewrite all_chars_append, json_escape_char_printable, IH.
  reflexivity.
Qed.

Lemma json_dumps_printable (r : record) :
  all_chars is_printable (json_dumps r) = true.
Proof.
  unfold json_dumps, json_dumps_str.
  rewrite !all_chars_append, !json_escape_printable. reflexivity.
Qed.

(** *** The lines of a run *)

Lemma lines_of_output (t : nat -> N) :
  lines (output t) = map json_dumps (records_from 0 num_prompts (start t)).
Proof.
  unfold output, main. rewrite file_for_range. cbn [start file append].
  apply lines_cat, json_dumps_no_lf.
Qed.

Lemma exec_for_range_last (body : nat -> Run unit) (first count : nat)
      (p : Proc) :
  execState (for_range body first (S count)) p
  = execState (body (first + count))
              (execState (for_range body first count) p).
Proof.
  revert first p. induction count as [ | count IH]; intros first p.
  - rewrite exec_for_range_succ, Nat.add_0_r. reflexivity.
  - rewrite exec_for_range_succ, IH, <- exec_for_range_succ.
    rewrite Nat.add_succ_comm. reflexivity.
Qed.

(** Record [k] of the loop is the one that turn [first + k] writes, in
    the state that the turns before it have left. *)
Lemma nth_records_from (first count k : nat) (p : Proc) (d : record) :
  k < count ->
  nth k (records_from first count p) d
  = written (first + k) (execState (for_range loop_body first k) p).
Proof.
  revert first k p. induction count as [ | count IH]; intros first k p Hk;
    [ lia | ].
  destruct k as [ | k].
  - rewrite Nat.add_0_r. reflexivity.
  - cbn [records_from nth]. rewrite IH by lia.
    rewrite exec_for_range_succ, Nat.add_succ_comm. reflexivity.
Qed.

Lemma line_at_written (t : nat -> N) (i : nat) :
  i < num_prompts ->
  line_at t i = json_dumps (written i (state_before t i)).
Proof.
  intros Hi. unfold line_at, state_before. rewrite lines_of_output.
  rewrite (nth_indep _ "" (json_dumps (mkRecord ""))), map_nth
    by (rewrite length_map, records_from_length; exact Hi).
  rewrite nth_records_from by exact Hi. reflexivity.
Qed.

Lemma pool_is_stripped (seq : list string) (p : Proc) :
  seq <> [] -> map strip seq = seq ->
  In (strip (evalState (choice seq) p)) seq.
Proof.
  intros Hne Hs. rewrite <- Hs at 2. apply in_map, choice_in, Hne.
Qed.

Lemma pool_lengths (seq : list string) (lo hi : nat) (s : string) :
  forallb (fun x => ((lo <=? String.length x)
                     && (String.length x <=? hi))%nat) seq
  = true ->
  In s seq -> lo <= String.length s <= hi.
Proof.
  intros Hall Hin. rewrite forallb_forall in Hall.
  specialize (Hall _ Hin). apply andb_true_iff in Hall.
  destruct Hall as [H1 H2]. apply Nat.leb_le in H1, H2. lia.
Qed.

Lemma short_record_in_pool (i : nat) (p : Proc) :
  class_of (rand_val_of p) = Short -> In (prompt (written i p)) short_prompts.
Proof.
  intros Hc. rewrite written_of_class, Hc.
  apply pool_is_stripped; [ discriminate | vm_compute; reflexivity ].
Qed.

Lemma medium_record_in_pool (i : nat) (p : Proc) :
  class_of (rand_val_of p) = Medium ->
  In (prompt (written i p)) medium_prompts.
Proof.
  intros Hc. rewrite written_of_class, Hc.
  apply pool_is_stripped; [ discriminate | vm_compute; reflexivity ].
Qed.

Lemma long_record_length (i : nat) :
  i < 1000 -> String.length (strip (long_prompt_text i)) = 551.
Proof.
  intros Hi. rewrite strip_long_prompt_text, (format_03d_three_digits _ Hi).
  rewrite !length_append. reflexivity.
Qed.

(** *** The properties *)

(** X9: records with different prompts are written as different lines:
    [json.dumps] loses nothing of the prompt. *)
Theorem different_prompts_give_different_lines (r1 r2 : record) :
  prompt r1 <> prompt r2 -> json_dumps r1 <> json_dumps r2.
Proof. intros Hne E. apply Hne, json_dumps_injective, E. Qed.

(** X10: every line of the file of a run is made of printable ASCII
    characters only, whatever the draws. *)
Theorem corpus_lines_are_printable_ascii (t : nat -> N) :
  Forall (fun l => all_chars is_printable l = true) (lines (output t)).
Proof.
  rewrite lines_of_output. apply Forall_map, Forall_forall.
  intros r _. apply json_dumps_printable.
Qed.

(** X11: a record of the short class holds one of the ten short prompts
    as it stands in the list, and a record of the medium class one of the
    seven medium prompts. *)
Theorem pool_records_are_verbatim (i : nat) (p : Proc) :
  match class_of (rand_val_of p) with
  | Short => In (prompt (written i p)) short_prompts
  | Medium => In (prompt (written i p)) medium_prompts
  | Long | Huge => True
  end.
Proof.
  destruct (class_of (rand_val_of p)) eqn:Hc.
  - apply short_record_in_pool, Hc.
  - apply medium_record_in_pool, Hc.
  - exact I.
  - exact I.
Qed.

(** X12: for an index below 1000 the length of the prompt tells the
    class: 5 to 29 characters for short, 63 to 93 for medium, 551 for
    long, and 945 to 2700 for huge. *)
Theorem prompt_length_tells_the_class (i : nat) (p : Proc) :
  i < 1000 ->
  let n := String.length (prompt (written i p)) in
  match class_of (rand_val_of p) with
  | Short => 5 <= n <= 29
  | Medium => 63 <= n <= 93
  | Long => n = 551
  | Huge => 945 <= n <= 2700
  end.
Proof.
  intros Hi n. subst n. destruct (class_of (rand_val_of p)) eqn:Hc.
  - apply (pool_lengths short_prompts); [ vm_compute; reflexivity | ].
    apply short_record_in_pool, Hc.
  - apply (pool_lengths medium_prompts); [ vm_compute; reflexivity | ].
    apply medium_record_in_pool, Hc.
  - rewrite written_of_class, Hc. apply long_record_length, Hi.
  - rewrite written_of_class, Hc, huge_prompt_length.
    pose proof (randint_range 5 50 (after_draws 1 p) ltac:(lia)) as Hr.
    destruct (Z.leb_spec 1 (evalState (randint 5 50) (after_draws 1 p)));
      [ | lia ].
    change (String.length (strip huge_stack_trace_example)) with 749. lia.
Qed.

(** X13: in the file of a run, line [i] (counted from 0) of the long
    class is the JSON object of the long template with the identifier
    [deploy-using-helm-] followed by the three digits of [i]. *)
Theorem long_line_carries_its_line_number (t : nat -> N) (i : nat) :
  i < num_prompts ->
  class_at t i = Long ->
  line_at t i
  = json_dumps
      (mkRecord
         (strip (long_before
                 ++ ("deploy-using-helm-" ++ three_digits i) ++ long_after))).
Proof.
  intros Hi Hc. rewrite (line_at_written _ _ Hi). f_equal.
  unfold written, evalState. rewrite run_pick_prompt_text.
  unfold class_at in Hc. rewrite Hc. cbn [fst].
  unfold long_prompt_text. rewrite replace_in_long_template.
  rewrite format_03d_three_digits by (unfold num_prompts in Hi; lia).
  reflexivity.
Qed.

(** X14: in the file of a run, two lines of the long class are never
    equal. *)
Theorem long_lines_of_a_run_differ (t : nat -> N) (i j : nat) :
  i < j -> j < num_prompts ->
  class_at t i = Long -> class_at t j = Long ->
  line_at t i <> line_at t j.
Proof.
  intros Hij Hj Hi Hjc.
  rewrite !line_at_written by lia. intros E.
  apply json_dumps_injective in E.
  unfold class_at in Hi, Hjc.
  rewrite !written_of_class, Hi, Hjc in E.
  revert E. apply long_prompts_differ. lia.
Qed.

(** *** The theorems on the tapes of [Fixtures] *)

Import Fixtures.

Lemma different_prompts_give_different_lines_witness :
  json_dumps (mkRecord "hello") <> json_dumps (mkRecord "list pods").
Proof.
  apply (different_prompts_give_different_lines
           (mkRecord "hello") (mkRecord "list pods")).
  discriminate.
Defined.

Lemma prompt_length_tells_the_class_witness :
  String.length (prompt (written 7 (start tape_long))) = 551.
Proof.
  apply (prompt_length_tells_the_class 7 (start tape_long)). lia.
Defined.

Lemma long_line_carries_its_line_number_witness :
  line_at tape_long 2
  = json_dumps
      (mkRecord
         (strip (long_before ++ "deploy-using-helm-002" ++ long_after))).
Proof.
  apply (long_line_carries_its_line_number tape_long 2).
  - unfold num_prompts. lia.
  - vm_compute. reflexivity.
Defined.

Lemma long_lines_of_a_run_differ_witness :
  line_at tape_long 0 <> line_at tape_long 99.
Proof.
  apply (long_lines_of_a_run_differ tape_long 0 99).
  - lia.
  - unfold num_prompts. lia.
  - vm_compute. reflexivity.
  - vm_compute. reflexivity.
Defined.

End PromptGenExtra.

(* ===================================================================== *)
(** ** The corpus as a reader finds it *)
(* ===================================================================== *)

Module CorpusSpec.
Import PyStr PyStrFacts PromptGen PromptGenSpec Corpus PromptGenExtra.

Lemma drop_prefix_append (p s : string) : drop_prefix p (p ++ s) = Some s.
Proof.
  induction p as [ | c p IH]; [ destruct s; reflexivity | ].
  cbn [append drop_prefix]. rewrite Ascii.eqb_refl. exact IH.
Qed.

Lemma read_escape_char (c : ascii) (rest : string) :
  read_string_and_brace (json_escape_char c ++ rest)
  = option_map (String c) (read_string_and_brace rest).
Proof. destruct c as [[] [] [] [] [] [] [] []]; reflexivity. Qed.

Lemma read_escape (s : string) :
  read_string_and_brace (json_escape s ++ dq ++ "}") = Some s.
Proof.
  induction s as [ | c s IH]; [ reflexivity | ].
  cbn [json_escape]. rewrite append_assoc, read_escape_char, IH. reflexivity.
Qed.

(** A line that [json.dumps] wrote reads back as the record. *)
Lemma json_dumps_framed (r : record) :
  json_dumps r = record_head ++ json_escape (prompt r) ++ dq ++ "}".
Proof.
  unfold json_dumps, json_dumps_str, record_head.
  rewrite !append_assoc. reflexivity.
Qed.

Lemma parse_json_dumps (r : record) : parse_record_line (json_dumps r) = Some r.
Proof.
  unfold parse_record_line.
  rewrite json_dumps_framed, drop_prefix_append, read_escape.
  destruct r. reflexivity.
Qed.

Lemma last_char_rstrip (s : string) :
  match last_char (rstrip s) with
  | Some c => is_space c = false
  | None => True
  end.
Proof.
  induction s as [ | c s IH]; [ exact I | ].
  rewrite rstrip_cons. destruct (rstrip s) as [ | a r].
  - destruct (is_space c) eqn:Hc; [ exact I | exact Hc ].
  - exact IH.
Qed.

(** [strip] leaves no white character at either end. *)
Lemma no_space_at_ends_strip (s : string) : no_space_at_ends (strip s) = true.
Proof.
  unfold no_space_at_ends, strip.
  pose proof (last_char_rstrip (lstrip s)) as Hlast.
  destruct (lstrip_head s) as [E | (c & r & E & Hc)]; rewrite E in *.
  - reflexivity.
  - destruct (rstrip_head c r Hc) as (r' & E'). rewrite E' in *.
    cbn [first_char]. destruct (last_char (String c r')); [ | reflexivity ].
    rewrite Hc, Hlast. reflexivity.
Qed.

(** C7: a run with the configured count of 100 leaves a file of exactly
    100 lines; every line reads as a JSON object with the one member
    [prompt], and these objects are the 100 records in their order; the
    prompt of every record is a non-empty string with no white character
    at either end, which [strip] leaves as it is. *)
Theorem corpus_is_100_trimmed_json_records (t : nat -> N) :
  exists records : list record,
    List.length records = 100 /\
    output t = cat (map (fun r => json_dumps r ++ nl) records) /\
    List.length (lines (output t)) = 100 /\
    map parse_record_line (lines (output t)) = map Some records /\
    Forall (fun r => prompt r <> "" /\
                     no_space_at_ends (prompt r) = true /\
                     strip (prompt r) = prompt r) records.
Proof.
  exists (records_from 0 num_prompts (start t)).
  assert (Hlen : List.length (records_from 0 num_prompts (start t)) = 100)
    by apply records_from_length.
  split; [ exact Hlen | ].
  split.
  { unfold output, main. rewrite file_for_range. reflexivity. }
  rewrite lines_of_output, length_map, map_map.
  split; [ exact Hlen | ].
  split.
  { apply map_ext. intros r. apply parse_json_dumps. }
  apply records_from_all. intros i p. split; [ apply picked_not_blank | ].
  split; [ apply no_space_at_ends_strip | apply strip_idempotent ].
Qed.

End CorpusSpec.

(* ===================================================================== *)
(** ** The page: ratings, standard-error keys, scale and unit *)
(* ===================================================================== *)

Module ResultsPageSpec.
Import PyStr PyStrFacts ResultsPage.

(** *** Prefixes, substrings and suffixes *)

Lemma prefix_iff (p s : string) :
  String.prefix p s = true <-> exists r, s = p ++ r.
Proof.
  revert s. induction p as [ | c p IH]; intros s.
  - split; [ intros _; exists s; reflexivity | intros _; destruct s; reflexivity ].
  - destruct s as [ | d s]; simpl.
    + split; [ discriminate | intros (r & [=]) ].
    + destruct (Ascii.ascii_dec c d) as [-> | Hne].
      * rewrite IH. split; intros (r & E); exists r.
        -- rewrite E. reflexivity.
        -- injection E as E. exact E.
      * split; [ discriminate | intros (r & E) ].
        injection E as E1 E2. congruence.
Qed.

Lemma contains_iff (sub s : string) :
  contains sub s = true <-> exists a b, s = a ++ sub ++ b.
Proof.
  induction s as [ | c s IH].
  - cbn [contains]. rewrite orb_false_r, prefix_iff. split.
    + intros (r & E). exists "", r. exact E.
    + intros (a & b & E). destruct a; [ eauto | discriminate ].
  - cbn [contains]. rewrite orb_true_iff, prefix_iff, IH. split.
    + intros [(r & E) | (a & b & E)].
      * exists "", r. exact E.
      * exists (String c a), b. rewrite E. reflexivity.
    + intros (a & b & E). destruct a as [ | d a].
      * left. exists b. exact E.
      * right. injection E as _ E. eauto.
Qed.

Lemma endsWith_iff (s suf : string) :
  endsWith s suf = true <-> exists a, s = a ++ suf.
Proof.
  induction s as [ | c s IH].
  - cbn [endsWith]. rewrite orb_false_r, String.eqb_eq. split.
    + intros <-. exists "". reflexivity.
    + intros (a & E). symmetry in E. apply append_eq_nil in E.
      destruct E as [_ ->]. reflexivity.
  - cbn [endsWith]. rewrite orb_true_iff, String.eqb_eq, IH. split.
    + intros [<- | (a & ->)]; [ exists "" | exists (String c a) ]; reflexivity.
    + intros (a & E). destruct a as [ | d a].
      * left. exact E.
      * right. injection E as _ E. eauto.
Qed.

Lemma toLowerCase_append (s t : string) :
  toLowerCase (s ++ t) = toLowerCase s ++ toLowerCase t.
Proof.
  induction s as [ | c s IH]; [ reflexivity | ].
  cbn [append toLowerCase]. rewrite IH. reflexivity.
Qed.

Lemma mem_char_true_append (c : ascii) (a f : string) :
  mem_char c (a ++ String c f) = true.
Proof.
  rewrite mem_char_append. cbn [mem_char]. rewrite Ascii.eqb_refl.
  apply orb_true_r.
Qed.

(** A suffix that lacks a character lies behind the last place of that
    character. *)
Lemma endsWith_behind (a f suf : string) (c : ascii) :
  mem_char c suf = false ->
  endsWith (a ++ String c f) suf = endsWith f suf.
Proof.
  intros Hc.
  assert (Hne : forall x, String.eqb (x ++ String c f) suf = false).
  { intros x. apply String.eqb_neq. intros E.
    rewrite <- E, mem_char_true_append in Hc. discriminate. }
  induction a as [ | d a IH].
  - pose proof (Hne "") as H0. cbn [append] in *. cbn [endsWith].
    rewrite H0. reflexivity.
  - pose proof (Hne (String d a)) as H0. cbn [append] in *. cbn [endsWith].
    rewrite H0, IH. reflexivity.
Qed.

(** The first comma of [m ++ "," ++ f] is the one after [m] when [m] has
    none. *)
Lemma replace_first_comma (rep m f : string) :
  includes m "," = false ->
  replace_first "," rep (m ++ "," ++ f) = m ++ rep ++ f.
Proof.
  unfold includes. induction m as [ | c m IH]; intros Hm.
  - cbn [append replace_first].
    replace (String.prefix "," (String "," f)) with true
      by (symmetry; apply prefix_iff; exists f; reflexivity).
    reflexivity.
  - cbn [contains] in Hm. apply orb_false_elim in Hm. destruct Hm as [Hc Hm].
    specialize (IH Hm). cbn [append] in IH |- *. cbn [replace_first].
    replace (String.prefix "," (String c (m ++ String "," f))) with false.
    + rewrite IH. reflexivity.
    + symmetry. apply not_true_is_false. intros H.
      apply prefix_iff in H. destruct H as (r & E). injection E as E _.
      assert (Ht : String.prefix "," (String c m) = true)
        by (apply prefix_iff; exists m; rewrite E; reflexivity).
      congruence.
Qed.

Lemma includes_comma_append (m f : string) :
  includes (m ++ "," ++ f) "," = true.
Proof. apply contains_iff. exists m, f. reflexivity. Qed.

(** The two further tests of [getQualitativeRating] find nothing that
    the first has not found. *)
Lemma stderror_includes_stderr (s : string) :
  includes s "stderror" = true -> includes s "stderr" = true.
Proof.
  unfold includes. rewrite !contains_iff. intros (a & b & ->).
  exists a, ("or" ++ b). reflexivity.
Qed.

Lemma suffix_stderr_includes_stderr (s : string) :
  endsWith s "_stderr" = true -> includes s "stderr" = true.
Proof.
  unfold includes. rewrite endsWith_iff, contains_iff. intros (a & ->).
  exists (a ++ "_"), "". rewrite append_assoc. reflexivity.
Qed.

Lemma stderr_tests_are_one (s : string) :
  includes s "stderr" || includes s "stderror" || endsWith s "_stderr"
  = includes s "stderr".
Proof.
  destruct (includes s "stderr") eqn:H1; [ reflexivity | ].
  destruct (includes s "stderror") eqn:H2;
    [ apply stderror_includes_stderr in H2; congruence | ].
  destruct (endsWith s "_stderr") eqn:H3;
    [ apply suffix_stderr_includes_stderr in H3; congruence | ].
  reflexivity.
Qed.

Lemma rating_unfold (metricKey : string) (value : jsvalue) :
  getQualitativeRating metricKey value
  = match value with
    | JsNumber x =>
        if includes (toLowerCase metricKey) "stderr" then rating_na
        else if startsWith metricKey "acc"
        then if gt x lit_0_6 then rating_good
             else if gt x lit_0_3 then rating_moderate
             else rating_poor
        else rating_na
    | _ => rating_na
    end.
Proof.
  unfold getQualitativeRating. rewrite stderr_tests_are_one.
  destruct value; cbn [typeof];
    try (rewrite orb_true_r; reflexivity).
  change (negb ("number" =? "number")) with false.
  rewrite orb_false_r. reflexivity.
Qed.

Lemma gt_monotone (x y : QArith_base.Q) (lit : QArith_base.Q) :
  QArith_base.Qle x y -> gt (Finite x) lit = true -> gt (Finite y) lit = true.
Proof.
  cbn [gt]. rewrite !negb_true_iff. intros Hxy Hx.
  apply not_true_is_false. intros Hy.
  apply QArith_base.Qle_bool_iff in Hy.
  assert (Hle : QArith_base.Qle_bool x lit = true)
    by (apply QArith_base.Qle_bool_iff;
        exact (QArith_base.Qle_trans _ _ _ Hxy Hy)).
  congruence.
Qed.

Lemma gt_0_6_gt_0_3 (x : jsnumber) : gt x lit_0_6 = true -> gt x lit_0_3 = true.
Proof.
  destruct x as [q | | | ]; cbn [gt]; try (intros; assumption || reflexivity).
  rewrite !negb_true_iff. intros H6. apply not_true_is_false. intros H3.
  apply QArith_base.Qle_bool_iff in H3.
  assert (H : QArith_base.Qle_bool q lit_0_6 = true).
  { apply QArith_base.Qle_bool_iff.
    apply (QArith_base.Qle_trans _ lit_0_3); [ exact H3 | ].
    unfold QArith_base.Qle, lit_0_3, lit_0_6. simpl. lia. }
  congruence.
Qed.

Lemma is_metric_key_false_of_suffix (k : string) :
  endsWith k "_stderr" = true -> is_metric_key k = false.
Proof.
  intros H. unfold is_metric_key. rewrite H. apply andb_false_r.
Qed.

Lemma has_comma_not_alias (a f : string) :
  String.eqb (a ++ String "," f) "alias" = false.
Proof.
  apply String.eqb_neq. intros E.
  pose proof (mem_char_true_append "," a f) as H. rewrite E in H.
  discriminate.
Qed.

(** *** The properties *)

(** X15: a metric gets one of the badges Good, Moderate, Poor only when
    its value is a number, its key starts with "acc" and the key in lower
    case does not contain "stderr"; the badge is then Good above 0.6,
    Moderate above 0.3 and Poor otherwise.  Every other metric gets N/A:
    the tests for "stderror" and for the suffix "_stderr" decide
    nothing. *)
Theorem rating_only_for_accuracy_numbers (metricKey : string) (value : jsvalue) :
  (exists x,
     value = JsNumber x /\
     startsWith metricKey "acc" = true /\
     includes (toLowerCase metricKey) "stderr" = false /\
     getQualitativeRating metricKey value
     = if gt x lit_0_6 then rating_good
       else if gt x lit_0_3 then rating_moderate
       else rating_poor)
  \/
  (((forall x, value <> JsNumber x) \/
    startsWith metricKey "acc" = false \/
    includes (toLowerCase metricKey) "stderr" = true) /\
   getQualitativeRating metricKey value = rating_na).
Proof.
  rewrite rating_unfold.
  destruct value as [ | | b | x | s | ];
    try (right; split; [ left; intros x; discriminate | reflexivity ]).
  destruct (includes (toLowerCase metricKey) "stderr") eqn:Hs;
    [ right; split; [ tauto | reflexivity ] | ].
  destruct (startsWith metricKey "acc") eqn:Ha;
    [ | right; split; [ tauto | reflexivity ] ].
  left. exists x. auto.
Qed.

(** X16: the badge never falls when the value rises: with [x <= y], a
    key rated Good at [x] is rated Good at [y], one rated Moderate at [x]
    is rated Moderate or Good at [y], and one rated Poor at [y] is rated
    Poor at [x]. *)
Theorem rating_never_falls_with_the_value
        (metricKey : string) (x y : QArith_base.Q) :
  QArith_base.Qle x y ->
  let at_x := getQualitativeRating metricKey (JsNumber (Finite x)) in
  let at_y := getQualitativeRating metricKey (JsNumber (Finite y)) in
  (at_x = rating_good -> at_y = rating_good) /\
  (at_x = rating_moderate -> at_y = rating_moderate \/ at_y = rating_good) /\
  (at_y = rating_poor -> at_x = rating_poor).
Proof.
  intros Hxy at_x at_y. subst at_x at_y. rewrite !rating_unfold.
  destruct (includes (toLowerCase metricKey) "stderr");
    [ repeat split; discriminate | ].
  destruct (startsWith metricKey "acc"); [ | repeat split; discriminate ].
  pose proof (gt_monotone x y lit_0_6 Hxy) as H6.
  pose proof (gt_monotone x y lit_0_3 Hxy) as H3.
  pose proof (gt_0_6_gt_0_3 (Finite x)) as Hx.
  pose proof (gt_0_6_gt_0_3 (Finite y)) as Hy.
  destruct (gt (Finite x) lit_0_6), (gt (Finite x) lit_0_3),
    (gt (Finite y) lit_0_6), (gt (Finite y) lit_0_3);
    try (specialize (H6 eq_refl)); try (specialize (H3 eq_refl));
    try (specialize (Hx eq_refl)); try (specialize (Hy eq_refl));
    try discriminate;
    (split; [ | split ]); intros E; try discriminate E; auto.
Qed.

(** X17: for a metric key without a comma, the key under which its
    standard error is looked up is never itself listed as a metric. *)
Theorem plain_stderr_key_is_no_metric (metricKey : string) :
  includes metricKey "," = false ->
  is_metric_key (stdErrKey metricKey) = false.
Proof.
  intros Hc. unfold stdErrKey. rewrite Hc.
  apply is_metric_key_false_of_suffix, endsWith_iff. eauto.
Qed.

(** X18: for a metric key of the form [m,f], as lm-eval writes them, the
    standard error is looked up under [m_stderr,f]; that key passes the
    metric filter, so it gets a row of its own, and its rating is N/A
    whatever its value. *)
Theorem filtered_stderr_key_is_listed_and_unrated (m f : string) :
  includes m "," = false ->
  is_metric_key (m ++ "," ++ f) = true ->
  stdErrKey (m ++ "," ++ f) = m ++ "_stderr," ++ f /\
  is_metric_key (stdErrKey (m ++ "," ++ f)) = true /\
  (forall value,
     getQualitativeRating (stdErrKey (m ++ "," ++ f)) value = rating_na).
Proof.
  intros Hm Hk.
  assert (E : stdErrKey (m ++ "," ++ f) = m ++ "_stderr," ++ f).
  { unfold stdErrKey.
    rewrite includes_comma_append, (replace_first_comma _ _ _ Hm).
    reflexivity. }
  rewrite E. split; [ reflexivity | ]. split.
  - unfold is_metric_key in *. apply andb_true_iff in Hk.
    destruct Hk as [_ Hsuf]. apply negb_true_iff in Hsuf.
    change (m ++ "," ++ f) with (m ++ String "," f) in Hsuf.
    rewrite endsWith_behind in Hsuf by reflexivity.
    change (m ++ "_stderr," ++ f) with (m ++ "_stderr" ++ String "," f).
    rewrite <- append_assoc, has_comma_not_alias.
    rewrite endsWith_behind by reflexivity. rewrite Hsuf. reflexivity.
  - intros value. rewrite rating_unfold.
    replace (includes (toLowerCase (m ++ "_stderr," ++ f)) "stderr")
      with true; [ destruct value; reflexivity | ].
    symmetry. apply contains_iff.
    exists (toLowerCase m ++ "_"), ("," ++ toLowerCase f).
    rewrite !toLowerCase_append, !append_assoc. reflexivity.
Qed.

(** X19: a metric is divided by 1000 exactly when it is shown with the
    unit "ms", that is when its key contains "_ms"; every other metric is
    shown as it is. *)
Theorem scale_and_unit_agree (metricKey : string) :
  (scaleFactor metricKey = 1000 <-> unitLabel metricKey = "ms") /\
  (scaleFactor metricKey = 1000 <-> includes metricKey "_ms" = true) /\
  (scaleFactor metricKey = 1000 \/ scaleFactor metricKey = 1).
Proof.
  unfold scaleFactor, unitLabel, isLatency.
  destruct (String.eqb_spec metricKey "request_latency") as [-> | Hne].
  - vm_compute. repeat split; try discriminate; auto.
  - rewrite orb_false_r, andb_true_r.
    destruct (includes metricKey "_ms"); repeat split;
      try discriminate; auto.
Qed.

(** *** The theorems on keys of lm-eval *)

Lemma rating_never_falls_with_the_value_witness :
  let at_x :=
    getQualitativeRating "acc,none"
      (JsNumber (Finite (QArith_base.Qmake 1 2))) in
  let at_y :=
    getQualitativeRating "acc,none"
      (JsNumber (Finite (QArith_base.Qmake 7 10))) in
  (at_x = rating_good -> at_y = rating_good) /\
  (at_x = rating_moderate -> at_y = rating_moderate \/ at_y = rating_good) /\
  (at_y = rating_poor -> at_x = rating_poor).
Proof.
  apply (rating_never_falls_with_the_value
           "acc,none" (QArith_base.Qmake 1 2) (QArith_base.Qmake 7 10)).
  unfold QArith_base.Qle. simpl. lia.
Defined.

Lemma plain_stderr_key_is_no_metric_witness :
  is_metric_key (stdErrKey "f1") = false.
Proof.
  apply (plain_stderr_key_is_no_metric "f1"). reflexivity.
Defined.

Lemma filtered_stderr_key_is_listed_and_unrated_witness :
  stdErrKey ("acc" ++ "," ++ "none") = "acc" ++ "_stderr," ++ "none" /\
  is_metric_key (stdErrKey ("acc" ++ "," ++ "none")) = true /\
  (forall value,
     getQualitativeRating (stdErrKey ("acc" ++ "," ++ "none")) value
     = rating_na).
Proof.
  apply (filtered_stderr_key_is_listed_and_unrated "acc" "none");
    reflexivity.
Defined.

End ResultsPageSpec.

(* ===================================================================== *)
(** ** The page and the corpus on concrete inputs *)
(* ===================================================================== *)

Module MoreTests.
Import PyStr PromptGen Corpus ResultsPage Fixtures.

Example lower_case_of_mixed : toLowerCase "Acc_StdErr,None" = "acc_stderr,none".
Proof. reflexivity. Qed.

Example ends_with_suffix : endsWith "f1_stderr" "_stderr" = true.
Proof. reflexivity. Qed.

Example ends_with_nothing : endsWith "f1" "" = true.
Proof. reflexivity. Qed.

Example ends_with_longer : endsWith "err" "_stderr" = false.
Proof. reflexivity. Qed.

Example replace_first_only : replace_first "," "_stderr," "a,b,c" = "a_stderr,b,c".
Proof. reflexivity. Qed.

Example std_err_key_of_filtered : stdErrKey "acc,none" = "acc_stderr,none".
Proof. reflexivity. Qed.

Example std_err_key_of_plain : stdErrKey "f1" = "f1_stderr".
Proof. reflexivity. Qed.

Example rating_of_good_accuracy :
  getQualitativeRating "acc,none" (JsNumber (Finite (QArith_base.Qmake 7 10)))
  = rating_good.
Proof. reflexivity. Qed.

Example rating_at_the_threshold :
  getQualitativeRating "acc_norm,none" (JsNumber (Finite lit_0_6))
  = rating_moderate.
Proof. reflexivity. Qed.

Example rating_of_low_accuracy :
  getQualitativeRating "acc" (JsNumber (Finite (QArith_base.Qmake 1 4)))
  = rating_poor.
Proof. reflexivity. Qed.

Example rating_of_upper_case_key :
  getQualitativeRating "ACC" (JsNumber (Finite (QArith_base.Qmake 7 10)))
  = rating_na.
Proof. reflexivity. Qed.

Example rating_of_a_string :
  getQualitativeRating "acc,none" (JsString "0.7") = rating_na.
Proof. reflexivity. Qed.

Example rating_of_perplexity :
  getQualitativeRating "word_perplexity,none"
                       (JsNumber (Finite (QArith_base.Qmake 12 1)))
  = rating_na.
Proof. reflexivity. Qed.

Example scale_of_the_chart_keys :
  map scaleFactor
      [ "time_to_first_token_ms"; "time_per_output_token_ms";
        "inter_token_latency_ms"; "output_tokens_per_second";
        "requests_per_second"; "request_latency"; "request_concurrency" ]
  = [1000; 1000; 1000; 1; 1; 1; 1].
Proof. reflexivity. Qed.

Example unescape_reads_back :
  json_unescape (json_escape ("a" ++ dq ++ nl ++ "\b")) = Some ("a" ++ dq ++ nl ++ "\b").
Proof. reflexivity. Qed.

Example first_line_of_the_long_tape :
  String.prefix ("{" ++ dq ++ "prompt" ++ dq ++ ": " ++ dq ++ "Please analyze")
                (line_at tape_long 0) = true.
Proof. vm_compute. reflexivity. Qed.

Example startup_with_bucket_only :
  ResultsUIStart.startup_check (Some "benchmark-results") None None
  = [ "FATAL ERROR: S3_BUCKET_NAME, S3_ACCESS_KEY, and S3_SECRET_KEY";
      "must be set as environment variables." ].
Proof. reflexivity. Qed.

Example line_reads_back :
  parse_record_line
    ("{" ++ dq ++ "prompt" ++ dq ++ ": " ++ dq ++ "say \" ++ dq ++ "hi\"
     ++ dq ++ "\n" ++ dq ++ "}")
  = Some (mkRecord ("say " ++ dq ++ "hi" ++ dq ++ nl)).
Proof. reflexivity. Qed.

Example empty_line_is_no_record : parse_record_line "" = None.
Proof. reflexivity. Qed.

Example raw_line_feed_is_no_string :
  parse_record_line
    ("{" ++ dq ++ "prompt" ++ dq ++ ": " ++ dq ++ "a" ++ nl ++ "b" ++ dq ++ "}")
  = None.
Proof. reflexivity. Qed.

Example text_after_the_brace_is_no_record :
  parse_record_line
    ("{" ++ dq ++ "prompt" ++ dq ++ ": " ++ dq ++ "a" ++ dq ++ "} ")
  = None.
Proof. reflexivity. Qed.

Example template_has_space_at_ends : no_space_at_ends long_yaml_example = false.
Proof. vm_compute. reflexivity. Qed.

Example stripped_template_has_none :
  no_space_at_ends (strip long_yaml_example) = true.
Proof. vm_compute. reflexivity. Qed.

Example serialiser_on_bytes :
  Fixtures.dumps_raises
    (ResultsUI.envelope "benchmark" SerialiserFixtures.binary_benchmark_doc
                        "binary.yaml")
  = Some "Object of type bytes is not JSON serializable".
Proof. reflexivity. Qed.

Example serialiser_on_a_plain_document :
  Fixtures.dumps_raises
    (ResultsUI.envelope "lm-eval" Fixtures.lm_eval_doc "lm-eval.json")
  = None.
Proof. reflexivity. Qed.

Example depth_of_the_deep_document :
  Fixtures.depth SerialiserFixtures.deep_lm_eval_doc = 981.
Proof. vm_compute. reflexivity. Qed.

End MoreTests.
